(** * buildFile: emission of one output file of a style dictionary

    A shallow embedding of [lib/buildFile.js].  The function is embedded as a
    state-and-exception computation over a world made of the filesystem, the
    process-wide message groups and the chronological trace of the calls the
    function makes to its environment (filesystem, console, formatter).

    JavaScript values are kept as far as the function inspects them:
    [typeof], truthiness, own keys and the constructor of the filtered
    [properties] object, and the own-key order of the plain object that
    groups tokens by name. *)

From Stdlib Require Import String Ascii List ZArith NArith Bool Lia.
From stdpp Require Import base decidable option list sorting strings gmap.

Import ListNotations.
Local Open Scope string_scope.
Local Open Scope list_scope.

(** ** JavaScript values *)

(** Function values are references to function objects (see [Host]). *)
Definition FunRef := nat.

Inductive JsValue : Type :=
| JsUndefined
| JsNull
| JsBoolean (b : bool)
| JsNumber (z : Z)
| JsString (s : string)
| JsFunction (f : FunRef)
| JsObject (tag : string).

Definition typeof (v : JsValue) : string :=
  match v with
  | JsUndefined => "undefined"
  | JsNull => "object"
  | JsBoolean _ => "boolean"
  | JsNumber _ => "number"
  | JsString _ => "string"
  | JsFunction _ => "function"
  | JsObject _ => "object"
  end.

(** ToBoolean. *)
Definition truthy (v : JsValue) : bool :=
  match v with
  | JsUndefined | JsNull => false
  | JsBoolean b => b
  | JsNumber z => negb (Z.eqb z 0)
  | JsString s => negb (String.eqb s "")
  | JsFunction _ | JsObject _ => true
  end.

Inductive Exception : Type :=
| JsError (message : string)
| JsTypeError (message : string)
| FormatterError (payload : string)
| FilesystemError (code path : string).

Inductive Completion (A : Type) : Type :=
| Normal (a : A)
| Throw (e : Exception).
Arguments Normal {A} a.
Arguments Throw {A} e.

Definition nl : string := String (ascii_of_nat 10) EmptyString.

(** ** Node's [path.dirname] (POSIX flavour) *)

Module path.

Definition slash : ascii := ascii_of_nat 47.

(** The backwards loop of [dirname] over the characters at indices
    [length - 1 .. 1], given in that order.  [Some r] is the (reversed)
    text between index 1 and the slash found at [end]; [None] is
    [end = -1]. *)
Fixpoint scan (r : list ascii) (matchedSlash : bool) : option (list ascii) :=
  match r with
  | [] => None
  | c :: r' =>
      if Ascii.eqb c slash
      then (if matchedSlash then scan r' true else Some r')
      else scan r' false
  end.

Definition dirname (p : string) : string :=
  match p with
  | EmptyString => "."
  | String c0 rest =>
      let hasRoot := Ascii.eqb c0 slash in
      match scan (rev (list_ascii_of_string rest)) true with
      | None => if hasRoot then "/" else "."
      | Some r' =>
          match r' with
          | [] => if hasRoot then "//" else String c0 EmptyString
          | _ => String c0 (string_of_list_ascii (rev r'))
          end
      end
  end.

End path.

(** ** Data model *)

(** A token as the function reads it: [path], [name] and [value]. *)
Module Token.
Record t : Type := mk { path : list string; name : string; value : string }.
End Token.

(** The nested token tree, keyed by path segment. *)
#[warnings="-register-all"]
Inductive Tree : Type :=
| Leaf (t : Token.t)
| Branch (children : list (string * Tree)).

(** What [x.constructor] evaluates to for an object [x]. *)
Inductive Constructor : Type :=
| CObject                    (* a plain object: [x.constructor === Object] *)
| COther (name : string)     (* another constructor, such as Map *)
| CNone.                     (* a null-prototype object: [undefined] *)

Definition is_Object (c : Constructor) : bool :=
  match c with CObject => true | _ => false end.

(** An object held in a [properties] slot: its enumerable own entries, in
    the order of [Object.keys], and its constructor. *)
Module Properties.
Record t : Type := mk { constructor : Constructor; own : list (string * Tree) }.
Definition keys (o : t) : list string := map fst (own o).
Definition empty : t := mk CObject [].
End Properties.

Module Dictionary.
Record t : Type := mk {
  properties : option Properties.t;        (* [None]: undefined *)
  allProperties : option (list Token.t)    (* [None]: undefined *)
}.
(** The default argument [{}]. *)
Definition empty : t := mk None None.
End Dictionary.

(** The object returned by [filterProperties], as [buildFile] looks at it. *)
Inductive PropertiesSlot : Type :=
| NoOwnKey                          (* [hasOwnProperty('properties')] is false *)
| OwnUndefined                      (* own key holding undefined or null *)
| OwnObject (o : Properties.t).

Module FilterResult.
Record t : Type := mk {
  slot : PropertiesSlot;
  allProperties : option (list Token.t)
}.
(** [filteredProperties.properties] *)
Definition properties (r : t) : option Properties.t :=
  match slot r with OwnObject o => Some o | _ => None end.
End FilterResult.

Module Platform.
Record t : Type := mk { buildPath : option string }.
End Platform.

Module File.
Record t : Type := mk {
  destination : JsValue;
  filter : option (Token.t -> bool);
  format : JsValue
}.
End File.

(** [Object.assign({}, dictionary, {properties, allProperties, tokens,
    allTokens, _properties})] *)
Module FilteredDictionary.
Record t : Type := mk {
  source : Dictionary.t;                   (* the copied own fields *)
  properties : option Properties.t;
  allProperties : option (list Token.t);
  tokens : option Properties.t;
  allTokens : option (list Token.t);
  _properties : option Properties.t
}.
End FilteredDictionary.

(** Modelled from the spec: [./utils/createFormatArgs], which is not among
    the sources.  It returns the normalized argument bundle holding the
    filtered dictionary, the platform config and the file spec. *)
Module FormatArgs.
Record t : Type := mk {
  dictionary : FilteredDictionary.t;
  platform : Platform.t;
  file : File.t
}.
End FormatArgs.

Definition createFormatArgs (dictionary : FilteredDictionary.t)
    (platform : Platform.t) (file : File.t) : FormatArgs.t :=
  FormatArgs.mk dictionary platform file.

(** The [this] value of a call. *)
Inductive ThisValue : Type :=
| ThisUndefined
| ThisFile (file : File.t).

(** What a call of the formatter does, as far as [buildFile] can observe:
    it returns the body of the file or throws, and reference resolution may
    record reference-loss messages while it runs.  A formatter is any
    function: what it returns may depend on the state of the program at the
    time of the call, so the outcome of a call belongs to the function
    objects as they are at that time (see [Host]); what it prints or writes
    on its own is not a call of [buildFile] and is not traced. *)
Module FormatOutcome.
Record t : Type := mk {
  completion : Completion string;
  references : list string
}.
End FormatOutcome.

(** A function object: its [nested] property and its code, which runs with
    a [this] value and the three arguments of a formatter. *)
Module FunctionObject.
Record t : Type := mk {
  nested : JsValue;
  code : ThisValue -> FormatArgs.t -> Platform.t -> File.t -> FormatOutcome.t
}.

(** [f.bind(thisArg)]: a new function object.  It has no [nested] property
    of its own, and runs the code of [f] with [thisArg] as [this] whatever
    [this] it is called with. *)
Definition bind (f : t) (thisArg : File.t) : t :=
  mk JsUndefined (fun _ => code f (ThisFile thisArg)).
End FunctionObject.

(** ** Message groups *)

(** Modelled from the spec: [./utils/groupMessages], which is not among the
    sources.  A group is a named, clearable bucket of message strings:
    messages are appended, counted, read, and read-and-cleared.  The values
    of the [GROUP] table are not known; each member's name stands for its
    value. *)
Module GroupMessages.

Module GROUP.
Definition PropertyNameCollisionWarnings : string :=
  "PropertyNameCollisionWarnings".
Definition FilteredOutputReferences : string :=
  "FilteredOutputReferences".
End GROUP.

Definition fetchMessages (messageGroup : string)
    (groupedMessages : gmap string (list string)) : list string :=
  default [] (groupedMessages !! messageGroup).

Definition count (messageGroup : string)
    (groupedMessages : gmap string (list string)) : nat :=
  length (fetchMessages messageGroup groupedMessages).

Definition clear (messageGroup : string)
    (groupedMessages : gmap string (list string)) : gmap string (list string) :=
  delete messageGroup groupedMessages.

Definition add (messageGroup message : string)
    (groupedMessages : gmap string (list string)) : gmap string (list string) :=
  <[messageGroup := fetchMessages messageGroup groupedMessages ++ [message]]>
    groupedMessages.

Definition flush (messageGroup : string)
    (groupedMessages : gmap string (list string))
  : list string * gmap string (list string) :=
  (fetchMessages messageGroup groupedMessages, clear messageGroup groupedMessages).

Definition add_all (messageGroup : string) (messages : list string)
    (groupedMessages : gmap string (list string)) : gmap string (list string) :=
  fold_left (fun g m => add messageGroup m g) messages groupedMessages.

End GroupMessages.

(** ** The world *)

(** The calls [buildFile] makes to its environment, in order. *)
Inductive Event : Type :=
| FsExistsSync (p : string)
| FsMkdirsSync (p : string)
| FsWriteFileSync (p content : string)
| ConsoleLog (line : string)
| FormatCall (args : FormatArgs.t) (platform : Platform.t) (file : File.t).

(** The filesystem holds directories and files by path; paths are compared
    as strings.  The test and the creation of a directory always succeed;
    the write of a file fails on a path that cannot be opened for writing
    (see [fs.writeError]).  Permission and disk errors are outside this
    model. *)
Module World.
Record t : Type := mk {
  dirs : gset string;
  files : gmap string string;
  groupedMessages : gmap string (list string);
  trace : list Event
}.
End World.

Definition logged (e : Event) : option string :=
  match e with ConsoleLog line => Some line | _ => None end.

(** The lines printed so far. *)
Definition console (w : World.t) : list string :=
  omap logged (World.trace w).


(** The calls that test or create a directory. *)
Definition directory_call (e : Event) : bool :=
  match e with
  | FsExistsSync _ | FsMkdirsSync _ => true
  | _ => false
  end.

(** ** Computations *)

Definition M (A : Type) : Type := World.t -> Completion A * World.t.

Definition ret {A} (a : A) : M A := fun w => (Normal a, w).

Definition throw {A} (e : Exception) : M A := fun w => (Throw e, w).

Definition bind {A B} (m : M A) (k : A -> M B) : M B :=
  fun w =>
    match m w with
    | (Normal a, w') => k a w'
    | (Throw e, w') => (Throw e, w')
    end.

Definition lift {A} (c : Completion A) : M A := fun w => (c, w).

Declare Scope js_scope.
Delimit Scope js_scope with js.
Notation "'let*' x ':=' m 'in' k" := (bind m (fun x => k))
  (at level 10, x binder, m at level 100, k at level 200) : js_scope.
Notation "m ';;' k" := (bind m (fun _ => k))
  (at level 100, k at level 200, right associativity) : js_scope.

Definition emit (e : Event) : M unit :=
  fun w => (Normal tt,
            World.mk (World.dirs w) (World.files w) (World.groupedMessages w)
                     (World.trace w ++ [e])).

Definition messages : M (gmap string (list string)) :=
  fun w => (Normal (World.groupedMessages w), w).

Definition update_messages
    (f : gmap string (list string) -> gmap string (list string)) : M unit :=
  fun w => (Normal tt,
            World.mk (World.dirs w) (World.files w) (f (World.groupedMessages w))
                     (World.trace w)).

Module console_.
Definition log (line : string) : M unit := emit (ConsoleLog line).
End console_.

Module fs.

Definition is_root (p : string) : bool :=
  String.eqb p "." || String.eqb p "/".

Definition exists_in (p : string) (w : World.t) : bool :=
  is_root p || bool_decide (p ∈ World.dirs w)
  || bool_decide (is_Some (World.files w !! p)).

Definition existsSync (p : string) : M bool :=
  fun w => (Normal (exists_in p w),
            World.mk (World.dirs w) (World.files w) (World.groupedMessages w)
                     (World.trace w ++ [FsExistsSync p])).

(** The directory and its missing ancestors, deepest first. *)
Fixpoint chain (fuel : nat) (p : string) : list string :=
  match fuel with
  | O => []
  | S fuel' => if is_root p then [] else p :: chain fuel' (path.dirname p)
  end.

(** [fs.mkdirsSync] of fs-extra: the directory and its missing ancestors
    are created.  [buildFile] calls it only on a path at which [existsSync]
    found nothing; the call is taken to succeed. *)
Definition mkdirsSync (p : string) : M unit :=
  fun w => (Normal tt,
            World.mk (World.dirs w ∪ list_to_set (chain (S (String.length p)) p))
                     (World.files w) (World.groupedMessages w)
                     (World.trace w ++ [FsMkdirsSync p])).

Definition is_directory (p : string) (w : World.t) : bool :=
  is_root p || bool_decide (p ∈ World.dirs w).

Definition ends_with_slash (p : string) : bool :=
  match rev (list_ascii_of_string p) with
  | c :: _ => Ascii.eqb c path.slash
  | [] => false
  end.

(** The error of writing a file at [p], if any: the path is empty, or names
    a directory, or its parent is not a directory. *)
Definition writeError (p : string) (w : World.t) : option Exception :=
  if String.eqb p "" then Some (FilesystemError "ENOENT" p)
  else if is_directory p w || ends_with_slash p
  then Some (FilesystemError "EISDIR" p)
  else if is_directory (path.dirname p) w then None
  else if exists_in (path.dirname p) w
  then Some (FilesystemError "ENOTDIR" p)
  else Some (FilesystemError "ENOENT" p).

(** [fs.writeFileSync]: the file is created or replaced, or the call
    throws and no file changes. *)
Definition writeFileSync (p content : string) : M unit :=
  fun w =>
    match writeError p w with
    | Some e =>
        (Throw e,
         World.mk (World.dirs w) (World.files w) (World.groupedMessages w)
                  (World.trace w ++ [FsWriteFileSync p content]))
    | None =>
        (Normal tt,
         World.mk (World.dirs w) (<[p := content]> (World.files w))
                  (World.groupedMessages w)
                  (World.trace w ++ [FsWriteFileSync p content]))
    end.

End fs.

(** ** A plain object used as a map *)

(** [nameCollisionObj] is a plain object: its own properties are kept in
    creation order, a read falls back on [Object.prototype], and
    [Object.keys] lists array-index keys first, in ascending numeric order,
    then the other keys in creation order. *)
Module JsObject.

(** The properties every plain object inherits from [Object.prototype]. *)
Definition prototype_names : list string :=
  [ "constructor"; "__defineGetter__"; "__defineSetter__"; "hasOwnProperty";
    "__lookupGetter__"; "__lookupSetter__"; "isPrototypeOf";
    "propertyIsEnumerable"; "toString"; "valueOf"; "__proto__";
    "toLocaleString" ].

Definition inherited (k : string) : bool :=
  existsb (String.eqb k) prototype_names.

Fixpoint own {V} (k : string) (o : list (string * V)) : option V :=
  match o with
  | [] => None
  | (k', v) :: o' => if String.eqb k k' then Some v else own k o'
  end.

(** [o[k] = v]: an existing own property keeps its place, a new one is
    created last. *)
Fixpoint set {V} (k : string) (v : V) (o : list (string * V))
  : list (string * V) :=
  match o with
  | [] => [(k, v)]
  | (k', v') :: o' =>
      if String.eqb k k' then (k', v) :: o' else (k', v') :: set k v o'
  end.

(** The result of reading [o[k]]. *)
Inductive Read (V : Type) : Type :=
| Own (v : V)
| Inherited          (* a member of [Object.prototype]: truthy, not an array *)
| Missing.           (* undefined *)
Arguments Own {V} v.
Arguments Inherited {V}.
Arguments Missing {V}.

Definition get {V} (k : string) (o : list (string * V)) : Read V :=
  match own k o with
  | Some v => Own v
  | None => if inherited k then Inherited else Missing
  end.

Definition digit (c : ascii) : option N :=
  let n := N_of_ascii c in
  if ((48 <=? n) && (n <=? 57))%N then Some (n - 48)%N else None.

Fixpoint digits (s : string) (acc : N) : option N :=
  match s with
  | EmptyString => Some acc
  | String c s' =>
      match digit c with
      | Some d => digits s' (acc * 10 + d)%N
      | None => None
      end
  end.

(** An array index is a canonical numeric string below 2^32 - 1. *)
Definition array_index (k : string) : option N :=
  match k with
  | EmptyString => None
  | String c rest =>
      if Ascii.eqb c "0"
      then (if String.eqb rest "" then Some 0%N else None)
      else match digits k 0 with
           | Some n => if (n <? 2 ^ 32 - 1)%N then Some n else None
           | None => None
           end
  end.

Definition is_index (k : string) : bool :=
  match array_index k with Some _ => true | None => false end.

Definition index_le (a b : string) : Prop :=
  (default 0 (array_index a) <= default 0 (array_index b))%N.

#[global] Instance index_le_dec a b : Decision (index_le a b).
Proof. unfold index_le. apply _. Defined.

(** The order of [Object.keys] on a list of own keys in creation order. *)
Definition key_order (ks : list string) : list string :=
  merge_sort index_le (List.filter is_index ks)
  ++ List.filter (fun k => negb (is_index k)) ks.

Definition keys {V} (o : list (string * V)) : list string :=
  key_order (map fst o).

End JsObject.

(** ** The host of [buildFile] *)

(** The styles [buildFile] asks of chalk. *)
Inductive ChalkStyle : Type :=
| keyword (color : string)
| bold
| green.

(** What [buildFile] requires from outside this file: the styling done by
    chalk, the token filter [./filterProperties], and the function objects
    that function values refer to, as they are when [buildFile] is called. *)
Class Host : Type := {
  chalk : list ChalkStyle -> string -> string;
  filterProperties :
    Dictionary.t -> option (Token.t -> bool) -> FilterResult.t;
  function_object : FunRef -> FunctionObject.t
}.

(** ** buildFile *)

Section BuildFile.
Context `{Host}.
Local Open Scope js_scope.

Fixpoint forEach {A} (l : list A) (f : A -> M unit) : M unit :=
  match l with
  | [] => ret tt
  | x :: l' => f x ;; forEach l' f
  end.

(** Calling a function object with three arguments: its code runs, and
    the messages it records go to the reference-loss group. *)
Definition invoke (f : FunctionObject.t) (this : ThisValue)
    (args : FormatArgs.t) (platform : Platform.t) (file : File.t)
  : M string :=
  let outcome := FunctionObject.code f this args platform file in
  emit (FormatCall args platform file) ;;
  update_messages
    (GroupMessages.add_all GroupMessages.GROUP.FilteredOutputReferences
       (FormatOutcome.references outcome)) ;;
  lift (FormatOutcome.completion outcome).

(** Lines 66-70: the test of the empty-result return. *)
Definition propertiesEmpty (filteredProperties : FilterResult.t)
  : Completion bool :=
  match FilterResult.slot filteredProperties with
  | NoOwnKey => Normal false
  | OwnUndefined =>
      Throw (JsTypeError "Cannot convert undefined or null to object")
  | OwnObject o =>
      Normal (Nat.eqb (length (Properties.keys o)) 0
              && is_Object (Properties.constructor o))
  end.

(** Lines 79-83: the body of the loop over [allProperties]. *)
Definition collect (nameCollisionObj : list (string * list Token.t))
    (propertyData : Token.t) : Completion (list (string * list Token.t)) :=
  let propertyName := Token.name propertyData in
  let nameCollisionObj :=
    match JsObject.get propertyName nameCollisionObj with
    | JsObject.Missing => JsObject.set propertyName [] nameCollisionObj
    | _ => nameCollisionObj
    end in
  match JsObject.get propertyName nameCollisionObj with
  | JsObject.Own tokens =>
      Normal (JsObject.set propertyName (tokens ++ [propertyData])
                nameCollisionObj)
  | _ =>
      Throw (JsTypeError "nameCollisionObj[propertyName].push is not a function")
  end.

Fixpoint collectAll (tokens : list Token.t)
    (nameCollisionObj : list (string * list Token.t))
  : Completion (list (string * list Token.t)) :=
  match tokens with
  | [] => Normal nameCollisionObj
  | propertyData :: tokens' =>
      match collect nameCollisionObj propertyData with
      | Normal o => collectAll tokens' o
      | Throw e => Throw e
      end
  end.

(** Lines 77-84. *)
Definition nameCollisions (allProperties : option (list Token.t))
  : Completion (list (string * list Token.t)) :=
  match allProperties with
  | None => Normal []
  | Some tokens => collectAll tokens []
  end.

Definition PROPERTY_NAME_COLLISION_WARNINGS (destination : string) : string :=
  GroupMessages.GROUP.PropertyNameCollisionWarnings +:+ ":" +:+ destination.

(** Lines 90-94. *)
Definition collisionLine (properties : Token.t) : string :=
  chalk [keyword "orangered"] (String.concat "." (Token.path properties))
  +:+ "   " +:+ chalk [keyword "darkorange"] (Token.value properties).

Definition collisions (tokens : list Token.t) : string :=
  String.concat (nl +:+ "        ") (map collisionLine tokens).

(** Line 97. *)
Definition collisionMessage (propertyName : string) (tokens : list Token.t)
  : string :=
  "Output name " +:+ chalk [keyword "orangered"; bold] propertyName
  +:+ " was generated by:" +:+ nl +:+ "        " +:+ collisions tokens.

(** Lines 88-100: the body of the loop over [Object.keys]. *)
Definition warnCollision (destination : string)
    (nameCollisionObj : list (string * list Token.t))
    (propertyName : string) : M unit :=
  match JsObject.own propertyName nameCollisionObj with
  | Some tokens =>
      if Nat.ltb 1 (length tokens)
      then update_messages
             (GroupMessages.add (PROPERTY_NAME_COLLISION_WARNINGS destination)
                (collisionMessage propertyName tokens))
      else ret tt
  | None => ret tt
  end.

(** Lines 77-102: the check for property name collisions, returning
    [propertyNamesCollisionCount]. *)
Definition checkCollisions (destination : string)
    (allProperties : option (list Token.t)) : M nat :=
  let* nameCollisionObj := lift (nameCollisions allProperties) in
  update_messages
    (GroupMessages.clear (PROPERTY_NAME_COLLISION_WARNINGS destination)) ;;
  forEach (JsObject.keys nameCollisionObj)
    (warnCollision destination nameCollisionObj) ;;
  let* groupedMessages := messages in
  ret (GroupMessages.count (PROPERTY_NAME_COLLISION_WARNINGS destination)
         groupedMessages).

Definition successLine (fullDestination : string) : string :=
  chalk [bold; green] ("✔︎ " +:+ fullDestination).

Definition warningHeader (fullDestination : string) : string :=
  "⚠️ " +:+ fullDestination.

(** Lines 118-126. *)
Definition collisionWarning (destination : string)
    (collisionMessages : list string) : string :=
  let propertyNamesCollisionWarnings :=
    String.concat (nl +:+ "    ") collisionMessages in
  let title :=
    "While building " +:+ chalk [keyword "orangered"; bold] destination
    +:+ ", token collisions were found; output may be unexpected." in
  let help :=
    chalk [keyword "orange"]
      (String.concat (nl +:+ "    ")
         [ "This many-to-one issue is usually caused by some combination of:";
           "* conflicting or similar paths/names in property definitions";
           "* platform transforms/transformGroups affecting names, especially when removing specificity";
           "* overly inclusive file filters" ]) in
  chalk [keyword "darkorange"; bold]
    (title +:+ nl +:+ "    " +:+ propertyNamesCollisionWarnings +:+ nl +:+ help).

(** Lines 131-136. *)
Definition referenceWarning (destination : string)
    (referenceMessages : list string) : string :=
  let filteredReferencesWarnings :=
    String.concat (nl +:+ "    ") referenceMessages in
  let title :=
    "While building " +:+ chalk [keyword "orangered"; bold] destination
    +:+ ", filtered out token references were found; output may be unexpected. Here are the references that are used but not defined in the file" in
  let help :=
    chalk [keyword "orange"]
      (String.concat (nl +:+ "    ")
         [ "This is caused when combining a filter and `outputReferences`." ]) in
  chalk [keyword "darkorange"; bold]
    (title +:+ nl +:+ "    " +:+ filteredReferencesWarnings +:+ nl +:+ help).

(** Lines 109-139. *)
Definition report (nested : JsValue) (destination fullDestination : string)
    (propertyNamesCollisionCount : nat) : M unit :=
  let* groupedMessages := messages in
  let filteredReferencesCount :=
    GroupMessages.count GroupMessages.GROUP.FilteredOutputReferences
      groupedMessages in
  if (truthy nested || Nat.eqb propertyNamesCollisionCount 0)
     && Nat.eqb filteredReferencesCount 0
  then console_.log (successLine fullDestination)
  else
    console_.log (warningHeader fullDestination) ;;
    (if Nat.ltb 0 propertyNamesCollisionCount
     then
       let* groupedMessages := messages in
       console_.log
         (collisionWarning destination
            (GroupMessages.fetchMessages
               (PROPERTY_NAME_COLLISION_WARNINGS destination) groupedMessages))
     else ret tt) ;;
    (if Nat.ltb 0 filteredReferencesCount
     then
       let* groupedMessages := messages in
       let flushed :=
         GroupMessages.flush GroupMessages.GROUP.FilteredOutputReferences
           groupedMessages in
       update_messages (fun _ => snd flushed) ;;
       console_.log (referenceWarning destination (fst flushed))
     else ret tt).

(** Lines 44-49. *)
Definition fullDestinationOf (platform : Platform.t) (destination : string)
  : string :=
  match Platform.buildPath platform with
  | Some buildPath =>
      if truthy (JsString buildPath) then buildPath +:+ destination
      else destination
  | None => destination
  end.

Definition buildFile (file : File.t) (platform : Platform.t)
    (dictionary : Dictionary.t) : M JsValue :=
  let destination := File.destination file in
  let filter := File.filter file in
  let format := File.format file in
  if negb (String.eqb (typeof format) "function")
  then throw (JsError "Please enter a valid file format")
  else if negb (String.eqb (typeof destination) "string")
  then throw (JsError "Please enter a valid destination")
  else
    match format, destination with
    | JsFunction f, JsString destination =>
        let nested := FunctionObject.nested (function_object f) in
        let format := FunctionObject.bind (function_object f) file in
        let fullDestination := fullDestinationOf platform destination in
        let dirname := path.dirname fullDestination in
        let* dirExists := fs.existsSync dirname in
        (if negb dirExists then fs.mkdirsSync dirname else ret tt) ;;
        let filteredProperties := filterProperties dictionary filter in
        let filteredDictionary :=
          FilteredDictionary.mk dictionary
            (FilterResult.properties filteredProperties)
            (FilterResult.allProperties filteredProperties)
            (FilterResult.properties filteredProperties)
            (FilterResult.allProperties filteredProperties)
            (Dictionary.properties dictionary) in
        let* empty := lift (propertiesEmpty filteredProperties) in
        if empty
        then
          let warnNoFile :=
            "No properties for " +:+ destination +:+ ". File not created." in
          console_.log (chalk [keyword "darkorange"] warnNoFile) ;;
          ret JsNull
        else
          let* propertyNamesCollisionCount :=
            checkCollisions destination
              (FilterResult.allProperties filteredProperties) in
          let* content :=
            invoke format ThisUndefined
              (createFormatArgs filteredDictionary platform file)
              platform file in
          fs.writeFileSync fullDestination content ;;
          report nested destination fullDestination
            propertyNamesCollisionCount ;;
          ret JsUndefined
    | _, _ => throw (JsTypeError "unreachable")
    end.

End BuildFile.

(** ** The token filter *)

(** Modelled from the spec: [./filterProperties], which is not among the
    sources.  It keeps the tokens the predicate holds for (all of them when
    there is no predicate): [properties] is a plain object with the nested
    shape of the dictionary restricted to the kept tokens, empty branches
    pruned; [allProperties] keeps the original relative order. *)
Module TokenFilter.

Definition keep (filterTree : Tree -> option Tree)
  : list (string * Tree) -> list (string * Tree) :=
  fix keep (children : list (string * Tree)) :=
    match children with
    | [] => []
    | (k, c) :: rest =>
        match filterTree c with
        | Some c' => (k, c') :: keep rest
        | None => keep rest
        end
    end.

Fixpoint filterTree (p : Token.t -> bool) (t : Tree) : option Tree :=
  match t with
  | Leaf token => if p token then Some (Leaf token) else None
  | Branch children =>
      match keep (filterTree p) children with
      | [] => None
      | kept => Some (Branch kept)
      end
  end.

Definition leavesOf (leaves : Tree -> list Token.t)
  : list (string * Tree) -> list Token.t :=
  fix leavesOf (children : list (string * Tree)) :=
    match children with
    | [] => []
    | (_, c) :: rest => leaves c ++ leavesOf rest
    end.

(** The tokens of a tree. *)
Fixpoint leaves (t : Tree) : list Token.t :=
  match t with
  | Leaf token => [token]
  | Branch children => leavesOf leaves children
  end.

(** The tokens of a dictionary: those of its tree and of its flat list. *)
Definition tokens (dictionary : Dictionary.t) : list Token.t :=
  match Dictionary.properties dictionary with
  | Some o => leavesOf leaves (Properties.own o)
  | None => []
  end
  ++ default [] (Dictionary.allProperties dictionary).

Definition filterProperties (dictionary : Dictionary.t)
    (filter : option (Token.t -> bool)) : FilterResult.t :=
  let p := default (fun _ => true) filter in
  FilterResult.mk
    (OwnObject
       (Properties.mk CObject
          (keep (filterTree p)
             (match Dictionary.properties dictionary with
              | Some o => Properties.own o
              | None => []
              end))))
    (Some (List.filter p (default [] (Dictionary.allProperties dictionary)))).

End TokenFilter.

(** ** The collision detector, in the words of the spec *)

Module Detector.

(** The tokens of [T] named [n], in the order of [T]. *)
Definition named (n : string) (T : list Token.t) : list Token.t :=
  List.filter (fun t => String.eqb (Token.name t) n) T.

(** A name is colliding when two or more tokens of [T] have it. *)
Definition colliding (T : list Token.t) (n : string) : bool :=
  Nat.ltb 1 (length (named n T)).

(** The distinct elements of a list, in the order of their first
    occurrence. *)
Fixpoint first_seen (l : list string) : list string :=
  match l with
  | [] => []
  | x :: l' => x :: List.filter (fun y => negb (String.eqb y x)) (first_seen l')
  end.

(** The distinct names of [T], first seen first. *)
Definition names (T : list Token.t) : list string :=
  first_seen (map Token.name T).

(** The groups of [T]: each distinct name with the tokens that have it. *)
Definition groups (T : list Token.t) : list (string * list Token.t) :=
map (fun n => (n, named n T)) (names T).

(** The colliding names in first-seen order, as the spec has them. *)
Definition colliding_names_first_seen (T : list Token.t) : list string :=
  List.filter (colliding T) (names T).

(** The colliding names in the order of the code: that of [Object.keys]. *)
Definition colliding_names (T : list Token.t) : list string :=
  List.filter (colliding T) (JsObject.key_order (names T)).

End Detector.

(** ** Sample inputs *)

Module Sample.

(** chalk without colour support leaves the text as it is. *)
Definition plain (_ : list ChalkStyle) (s : string) : string := s.

(** A flat formatter: one line per token. *)
Definition flat (args : FormatArgs.t) : string :=
  String.concat nl
    (map (fun t => Token.name t +:+ "=" +:+ Token.value t)
       (default []
          (FilteredDictionary.allProperties (FormatArgs.dictionary args)))).

(** Function 0 is a flat formatter, function 1 the same one marked as
    nested, function 2 a formatter that ignores the tokens. *)
Definition functions (f : FunRef) : FunctionObject.t :=
  match f with
  | 0 => FunctionObject.mk JsUndefined
           (fun _ args _ _ => FormatOutcome.mk (Normal (flat args)) [])
  | 1 => FunctionObject.mk (JsBoolean true)
           (fun _ args _ _ => FormatOutcome.mk (Normal (flat args)) [])
  | _ => FunctionObject.mk JsUndefined
           (fun _ _ _ _ => FormatOutcome.mk (Normal "{}") [])
  end.

Definition host : Host := Build_Host plain TokenFilter.filterProperties functions.


Definition color_a : Token.t := Token.mk ["color"; "a"] "color-a" "#fff".
Definition color_b : Token.t := Token.mk ["color"; "b"] "color-a" "#000".

(** The dictionary of scenario A. *)
Definition colors : Dictionary.t :=
  Dictionary.mk
    (Some (Properties.mk CObject
             [("color", Branch [("a", Leaf color_a); ("b", Leaf color_b)])]))
    (Some [color_a; color_b]).

(** A dictionary of one token. *)
Definition single : Dictionary.t :=
Dictionary.mk
  (Some (Properties.mk CObject [("color", Branch [("a", Leaf color_a)])]))
  (Some [color_a]).

(** A filter that excludes every token. *)
Definition nothing (_ : Token.t) : bool := false.

Definition two_x : Token.t := Token.mk ["size"; "x"] "2" "2px".
Definition two_y : Token.t := Token.mk ["size"; "y"] "2" "2pt".
Definition one_x : Token.t := Token.mk ["size"; "z"] "1" "1px".
Definition one_y : Token.t := Token.mk ["size"; "w"] "1" "1pt".

Definition world : World.t := World.mk ∅ ∅ ∅ [].

(** A world with one reference-loss message pending. *)
Definition pending : World.t :=
  World.mk ∅ ∅
    {[ GroupMessages.GROUP.FilteredOutputReferences := ["color.base"] ]} [].

Definition tokens_json (format : JsValue) : File.t :=
  File.mk (JsString "build/tokens.json") None format.

Definition no_platform : Platform.t := Platform.mk None.

Definition dist : Platform.t := Platform.mk (Some "dist/").

Definition vars_css : File.t := File.mk (JsString "vars.css") None (JsFunction 0).

Definition sizes : list Token.t := [two_x; two_y; one_x; one_y].





Definition constructor_token : Token.t :=
  Token.mk ["size"; "constructor"] "constructor" "1px".


(** The function objects when function 0 has come to ignore the tokens. *)
Definition later_functions (_ : FunRef) : FunctionObject.t := functions 2.

(** A world in which the collision group of build/tokens.json holds a
    message of an earlier emission. *)
Definition stale : World.t :=
  World.mk ∅ ∅
    {[ "PropertyNameCollisionWarnings:build/tokens.json" := ["stale"] ]} [].

End Sample.

(** ** The parts of an emission *)

Section Emission.
Context `{Host}.

(** The filtered dictionary of lines 55-63. *)
Definition filteredDictionaryOf (file : File.t) (dictionary : Dictionary.t)
  : FilteredDictionary.t :=
  let filteredProperties := filterProperties dictionary (File.filter file) in
  FilteredDictionary.mk dictionary
    (FilterResult.properties filteredProperties)
    (FilterResult.allProperties filteredProperties)
    (FilterResult.properties filteredProperties)
    (FilterResult.allProperties filteredProperties)
    (Dictionary.properties dictionary).

(** The argument bundle of lines 103-107. *)
Definition formatArgsOf (file : File.t) (platform : Platform.t)
    (dictionary : Dictionary.t) : FormatArgs.t :=
  createFormatArgs (filteredDictionaryOf file dictionary) platform file.

(** What the code of function [f] does when it runs with the file as
    [this] and the bundle, the platform and the file as arguments. *)
Definition formatted (f : FunRef) (file : File.t) (platform : Platform.t)
    (dictionary : Dictionary.t) : FormatOutcome.t :=
  FunctionObject.code (function_object f) (ThisFile file)
    (formatArgsOf file platform dictionary) platform file.

(** The message the loop of lines 88-100 adds for a key, if any. *)
Definition warningOf (nameCollisionObj : list (string * list Token.t))
    (propertyName : string) : option string :=
  match JsObject.own propertyName nameCollisionObj with
  | Some tokens =>
      if Nat.ltb 1 (length tokens)
      then Some (collisionMessage propertyName tokens)
      else None
  | None => None
  end.

Definition collisionMessages
    (nameCollisionObj : list (string * list Token.t)) : list string :=
  omap (warningOf nameCollisionObj) (JsObject.keys nameCollisionObj).

(** The message groups once the collision group of a destination has been
    cleared and rebuilt. *)
Definition rebuilt (destination : string) (collisionMessages : list string)
    (groupedMessages : gmap string (list string)) : gmap string (list string) :=
  GroupMessages.add_all (PROPERTY_NAME_COLLISION_WARNINGS destination)
    collisionMessages
    (GroupMessages.clear (PROPERTY_NAME_COLLISION_WARNINGS destination)
       groupedMessages).

(** The lines [report] prints. *)
Definition reportLines (nested : JsValue) (destination fullDestination : string)
    (count : nat) (collisionMessages references : list string) : list string :=
  if (truthy nested || Nat.eqb count 0) && Nat.eqb (length references) 0
  then [successLine fullDestination]
  else
    warningHeader fullDestination
    :: (if Nat.ltb 0 count
        then [collisionWarning destination collisionMessages] else [])
    ++ (if Nat.ltb 0 (length references)
        then [referenceWarning destination references] else []).

(** The directories after lines 51-53. *)
Definition ensuredDirs (dirname : string) (w : World.t) : gset string :=
  if fs.exists_in dirname w then World.dirs w
  else World.dirs w
       ∪ list_to_set (fs.chain (S (String.length dirname)) dirname).

(** The filesystem calls of lines 51-53. *)
Definition ensureEvents (dirname : string) (w : World.t) : list Event :=
  FsExistsSync dirname
  :: (if fs.exists_in dirname w then [] else [FsMkdirsSync dirname]).

(** The world after lines 51-53. *)
Definition ensured (dirname : string) (w : World.t) : World.t :=
  World.mk (ensuredDirs dirname w) (World.files w) (World.groupedMessages w)
    (World.trace w ++ ensureEvents dirname w).

End Emission.

(** * Properties *)

Section Lemmas.
Context `{Host}.

Lemma typeof_function v :
  String.eqb (typeof v) "function" = true -> exists f, v = JsFunction f.
Proof. destruct v; simpl; try discriminate. eauto. Qed.

Lemma typeof_string v :
  String.eqb (typeof v) "string" = true -> exists s, v = JsString s.
Proof. destruct v; simpl; try discriminate. eauto. Qed.

Lemma collision_group_not_references destination :
  PROPERTY_NAME_COLLISION_WARNINGS destination
  <> GroupMessages.GROUP.FilteredOutputReferences.
Proof. unfold PROPERTY_NAME_COLLISION_WARNINGS. simpl. discriminate. Qed.

Lemma fetch_add_eq k m g :
  GroupMessages.fetchMessages k (GroupMessages.add k m g)
  = GroupMessages.fetchMessages k g ++ [m].
Proof.
  unfold GroupMessages.add, GroupMessages.fetchMessages.
  by rewrite lookup_insert_eq.
Qed.

Lemma fetch_add_ne k k' m g :
  k <> k' ->
  GroupMessages.fetchMessages k' (GroupMessages.add k m g)
  = GroupMessages.fetchMessages k' g.
Proof.
  intros Hne. unfold GroupMessages.add, GroupMessages.fetchMessages.
  by rewrite lookup_insert_ne.
Qed.

Lemma fetch_add_all_eq k ms g :
  GroupMessages.fetchMessages k (GroupMessages.add_all k ms g)
  = GroupMessages.fetchMessages k g ++ ms.
Proof.
  revert g. induction ms as [|m ms IH]; intros g; simpl.
  - by rewrite app_nil_r.
  - unfold GroupMessages.add_all in *. simpl. rewrite IH, fetch_add_eq.
    by rewrite <- app_assoc.
Qed.

Lemma fetch_add_all_ne k k' ms g :
  k <> k' ->
  GroupMessages.fetchMessages k' (GroupMessages.add_all k ms g)
  = GroupMessages.fetchMessages k' g.
Proof.
  intros Hne. revert g. induction ms as [|m ms IH]; intros g; [done|].
  unfold GroupMessages.add_all in *. simpl. rewrite IH.
  by apply fetch_add_ne.
Qed.

Lemma fetch_clear_eq k g :
  GroupMessages.fetchMessages k (GroupMessages.clear k g) = [].
Proof.
  unfold GroupMessages.clear, GroupMessages.fetchMessages.
  by rewrite lookup_delete_eq.
Qed.

Lemma fetch_clear_ne k k' g :
  k <> k' ->
  GroupMessages.fetchMessages k' (GroupMessages.clear k g)
  = GroupMessages.fetchMessages k' g.
Proof.
  intros Hne. unfold GroupMessages.clear, GroupMessages.fetchMessages.
  by rewrite lookup_delete_ne.
Qed.

Lemma fetch_rebuilt_eq destination ms g :
  GroupMessages.fetchMessages (PROPERTY_NAME_COLLISION_WARNINGS destination)
    (rebuilt destination ms g) = ms.
Proof. unfold rebuilt. by rewrite fetch_add_all_eq, fetch_clear_eq. Qed.

Lemma fetch_rebuilt_ne destination k ms g :
  PROPERTY_NAME_COLLISION_WARNINGS destination <> k ->
  GroupMessages.fetchMessages k (rebuilt destination ms g)
  = GroupMessages.fetchMessages k g.
Proof.
  intros Hne. unfold rebuilt.
  by rewrite fetch_add_all_ne, fetch_clear_ne.
Qed.

Lemma forEach_warnCollision destination obj ks w :
  forEach ks (warnCollision destination obj) w
  = (Normal tt,
     World.mk (World.dirs w) (World.files w)
       (GroupMessages.add_all (PROPERTY_NAME_COLLISION_WARNINGS destination)
          (omap (warningOf obj) ks) (World.groupedMessages w))
       (World.trace w)).
Proof.
  revert w. induction ks as [|k ks IH]; intros [d fl g tr]; simpl; [done|].
  unfold bind, warnCollision, warningOf.
  destruct (JsObject.own k obj) as [tokens|]; simpl.
  - destruct (Nat.ltb 1 (length tokens)); simpl; by rewrite IH.
  - by rewrite IH.
Qed.

Lemma checkCollisions_eq destination allProperties w :
  checkCollisions destination allProperties w
  = match nameCollisions allProperties with
    | Throw e => (Throw e, w)
    | Normal obj =>
        (Normal (length (collisionMessages obj)),
         World.mk (World.dirs w) (World.files w)
           (rebuilt destination (collisionMessages obj)
              (World.groupedMessages w))
           (World.trace w))
    end.
Proof.
  unfold checkCollisions, bind, lift.
  destruct (nameCollisions allProperties) as [obj|e]; [|done].
  destruct w as [d fl g tr]; simpl.
  rewrite forEach_warnCollision. simpl.
  unfold messages, ret. simpl.
  unfold GroupMessages.count. fold (rebuilt destination (omap (warningOf obj) (JsObject.keys obj)) g).
  by rewrite fetch_rebuilt_eq.
Qed.

Lemma report_eq nested destination fullDestination count w :
  report nested destination fullDestination count w
  = let g := World.groupedMessages w in
    let references :=
      GroupMessages.fetchMessages
        GroupMessages.GROUP.FilteredOutputReferences g in
    (Normal tt,
     World.mk (World.dirs w) (World.files w)
       (if Nat.ltb 0 (length references)
        then GroupMessages.clear GroupMessages.GROUP.FilteredOutputReferences g
        else g)
       (World.trace w
        ++ map ConsoleLog
             (reportLines nested destination fullDestination count
                (GroupMessages.fetchMessages
                   (PROPERTY_NAME_COLLISION_WARNINGS destination) g)
                references))).
Proof.
  destruct w as [d fl g tr].
  unfold report, reportLines, bind, messages, GroupMessages.count. simpl.
  destruct (length (GroupMessages.fetchMessages
              GroupMessages.GROUP.FilteredOutputReferences g)) as [|n];
    destruct (truthy nested); destruct count as [|c]; simpl;
    unfold bind, console_.log, emit, ret, update_messages; simpl;
    rewrite <- ?app_assoc; reflexivity.
Qed.

Lemma fullDestinationOf_eq platform destination :
  fullDestinationOf platform destination
  = default "" (Platform.buildPath platform) +:+ destination.
Proof.
  unfold fullDestinationOf.
  destruct (Platform.buildPath platform) as [[|c s]|]; reflexivity.
Qed.

(** The whole of [buildFile] on a file spec that passes lines 34-37. *)
Lemma buildFile_valid file platform dictionary w f destination :
  File.format file = JsFunction f ->
  File.destination file = JsString destination ->
  let fullDestination := fullDestinationOf platform destination in
  let dirname := path.dirname fullDestination in
  let filteredProperties := filterProperties dictionary (File.filter file) in
  let dirs := ensuredDirs dirname w in
  let trace := World.trace w ++ ensureEvents dirname w in
  buildFile file platform dictionary w
  = match propertiesEmpty filteredProperties with
    | Throw e =>
        (Throw e, World.mk dirs (World.files w) (World.groupedMessages w) trace)
    | Normal true =>
        (Normal JsNull,
         World.mk dirs (World.files w) (World.groupedMessages w)
           (trace
            ++ [ConsoleLog
                  (chalk [keyword "darkorange"]
                     ("No properties for " +:+ destination
                      +:+ ". File not created."))]))
    | Normal false =>
        match nameCollisions (FilterResult.allProperties filteredProperties) with
        | Throw e =>
            (Throw e,
             World.mk dirs (World.files w) (World.groupedMessages w) trace)
        | Normal obj =>
            let outcome := formatted f file platform dictionary in
            let g :=
              GroupMessages.add_all
                GroupMessages.GROUP.FilteredOutputReferences
                (FormatOutcome.references outcome)
                (rebuilt destination (collisionMessages obj)
                   (World.groupedMessages w)) in
            let references :=
              GroupMessages.fetchMessages
                GroupMessages.GROUP.FilteredOutputReferences g in
            let called :=
              FormatCall (formatArgsOf file platform dictionary) platform file in
            match FormatOutcome.completion outcome with
            | Throw e =>
                (Throw e, World.mk dirs (World.files w) g (trace ++ [called]))
            | Normal content =>
                match fs.writeError fullDestination (ensured dirname w) with
                | Some e =>
                    (Throw e,
                     World.mk dirs (World.files w) g
                       (trace
                        ++ [called; FsWriteFileSync fullDestination content]))
                | None =>
                    (Normal JsUndefined,
                     World.mk dirs
                       (<[fullDestination := content]> (World.files w))
                       (if Nat.ltb 0 (length references)
                        then GroupMessages.clear
                               GroupMessages.GROUP.FilteredOutputReferences g
                        else g)
                       (trace
                        ++ [called; FsWriteFileSync fullDestination content]
                        ++ map ConsoleLog
                             (reportLines
                                (FunctionObject.nested (function_object f))
                                destination fullDestination
                                (length (collisionMessages obj))
                                (collisionMessages obj) references)))
                end
            end
        end
    end.
Proof.
  intros Hf Hd. simpl.
  unfold buildFile. rewrite Hf, Hd. simpl.
  unfold ensured, ensuredDirs, ensureEvents.
  destruct w as [d fl g tr]. simpl.
  set (dir := path.dirname (fullDestinationOf platform destination)).
  set (w0 := World.mk d fl g tr).
  unfold bind, fs.existsSync. simpl. fold w0.
  destruct (fs.exists_in dir w0) eqn:Hex; simpl; unfold lift.
  all: destruct (propertiesEmpty (filterProperties dictionary (File.filter file)))
      as [[|]|e]; simpl.
  all: try (rewrite <- ?app_assoc; reflexivity).
  all: rewrite checkCollisions_eq; simpl.
  all: destruct (nameCollisions _) as [obj|e]; simpl.
  all: try (rewrite <- ?app_assoc; reflexivity).
  all: unfold formatted, formatArgsOf, filteredDictionaryOf; simpl.
  all: destruct (FormatOutcome.completion _) as [content|e]; simpl.
  all: try (rewrite <- ?app_assoc; reflexivity).
  all: unfold fs.writeFileSync.
  all: match goal with
       | |- context [fs.writeError ?p ?a] =>
           match goal with
           | |- context [fs.writeError p ?b] =>
               lazymatch a with
               | b => fail
               | _ => change (fs.writeError p a) with (fs.writeError p b)
               end
           end
       end.
  all: destruct (fs.writeError _ _) as [e|]; simpl.
  all: try (rewrite <- ?app_assoc; reflexivity).
  all: rewrite report_eq; simpl.
  all: rewrite fetch_add_all_eq, fetch_add_all_ne, !fetch_rebuilt_ne, fetch_rebuilt_eq
             by (apply collision_group_not_references || apply not_eq_sym, collision_group_not_references).
  all: rewrite <- ?app_assoc; try reflexivity.
Qed.

End Lemmas.

(** ** The grouping of tokens by name *)

Section DetectorLemmas.

Lemma own_snoc {V} k (v : V) o :
  JsObject.own k o = None -> JsObject.own k (o ++ [(k, v)]) = Some v.
Proof.
  induction o as [|[k' v'] o IH]; simpl; intros Hown.
  - by rewrite String.eqb_refl.
  - destruct (String.eqb k k'); [done | auto].
Qed.

Lemma set_fresh {V} k (v : V) o :
  JsObject.own k o = None -> JsObject.set k v o = o ++ [(k, v)].
Proof.
  induction o as [|[k' v'] o IH]; simpl; intros Hown; [done|].
  destruct (String.eqb k k'); [done|]. by rewrite IH.
Qed.

Lemma set_snoc {V} k (v v' : V) o :
  JsObject.own k o = None ->
  JsObject.set k v' (o ++ [(k, v)]) = o ++ [(k, v')].
Proof.
  induction o as [|[k0 v0] o IH]; simpl; intros Hown.
  - by rewrite String.eqb_refl.
  - destruct (String.eqb k k0); [done|]. by rewrite IH.
Qed.

Lemma own_tabulated {V} (f : string -> V) n ks :
  JsObject.own n (map (fun k => (k, f k)) ks)
  = if decide (n ∈ ks) then Some (f n) else None.
Proof.
  induction ks as [|k ks IH]; cbn [map JsObject.own].
  - rewrite decide_False; [done | by intros ?%elem_of_nil].
  - destruct (String.eqb n k) eqn:E.
    + apply String.eqb_eq in E as ->. rewrite decide_True; [done | left].
    + apply String.eqb_neq in E. rewrite IH.
      destruct (decide (n ∈ ks)) as [Hin|Hin].
      * rewrite decide_True; [done | by right].
      * rewrite decide_False; [done|]. rewrite elem_of_cons. tauto.
Qed.

Lemma set_tabulated {V} (f g : string -> V) n v ks :
  NoDup ks -> n ∈ ks -> g n = v -> (forall k, k <> n -> g k = f k) ->
  JsObject.set n v (map (fun k => (k, f k)) ks) = map (fun k => (k, g k)) ks.
Proof.
  intros Hnd Hin Hv Hg. induction Hnd as [|k ks Hk Hnd IH]; simpl.
  - by apply elem_of_nil in Hin.
  - destruct (String.eqb n k) eqn:E.
    + apply String.eqb_eq in E as ->. rewrite Hv. f_equal.
      apply map_ext_in. intros a Ha. rewrite Hg; [done|].
      intros ->. apply Hk. by apply list_elem_of_In.
    + apply String.eqb_neq in E. rewrite Hg by done. f_equal. apply IH.
      apply elem_of_cons in Hin as [?|?]; [done | done].
Qed.

Lemma first_seen_elem x l : x ∈ Detector.first_seen l <-> x ∈ l.
Proof.
  induction l as [|y l IH]; simpl; [done|].
  rewrite !elem_of_cons, <- IH, list_elem_of_In, filter_In, <- list_elem_of_In.
  destruct (String.eqb x y) eqn:E.
  - apply String.eqb_eq in E. simpl. intuition congruence.
  - apply String.eqb_neq in E. simpl. intuition.
Qed.

Lemma NoDup_list_filter {A} (p : A -> bool) (l : list A) :
  NoDup l -> NoDup (List.filter p l).
Proof. rewrite !NoDup_ListNoDup. apply List.NoDup_filter. Qed.

Lemma elem_of_list_filter {A} (p : A -> bool) (l : list A) x :
  x ∈ List.filter p l <-> x ∈ l /\ p x = true.
Proof. rewrite !list_elem_of_In. apply filter_In. Qed.

Lemma first_seen_NoDup l : NoDup (Detector.first_seen l).
Proof.
  induction l as [|y l IH]; simpl; constructor.
  - rewrite elem_of_list_filter, String.eqb_refl. simpl. intros [_ ?]. done.
  - by apply NoDup_list_filter.
Qed.

Lemma list_filter_id {A} (p : A -> bool) (l : list A) :
  (forall x, x ∈ l -> p x = true) -> List.filter p l = l.
Proof.
  induction l as [|y l IH]; simpl; intros Hp; [done|].
  rewrite Hp by left. f_equal. apply IH. intros x Hx. apply Hp. by right.
Qed.

Lemma first_seen_snoc l x :
  Detector.first_seen (l ++ [x])
  = if decide (x ∈ l) then Detector.first_seen l
    else Detector.first_seen l ++ [x].
Proof.
  induction l as [|y l IH]; cbn [Detector.first_seen app].
  - rewrite decide_False; [done | by intros ?%elem_of_nil].
  - rewrite IH. destruct (decide (x ∈ l)) as [Hin|Hin].
    + rewrite decide_True; [done | by right].
    + destruct (decide (x = y)) as [->|Hne].
      * rewrite decide_True by left. rewrite List.filter_app. simpl.
        rewrite String.eqb_refl. simpl. by rewrite app_nil_r.
      * rewrite decide_False by (rewrite elem_of_cons; tauto).
        rewrite List.filter_app. simpl.
        apply String.eqb_neq in Hne. by rewrite Hne.
Qed.

Lemma named_snoc n T t :
  Detector.named n (T ++ [t])
  = Detector.named n T ++ (if String.eqb (Token.name t) n then [t] else []).
Proof.
  unfold Detector.named. rewrite List.filter_app. simpl.
  by destruct (String.eqb (Token.name t) n).
Qed.

Lemma named_nil n T : n ∉ Detector.names T -> Detector.named n T = [].
Proof.
  unfold Detector.names, Detector.named. rewrite first_seen_elem. intros Hn.
  induction T as [|t T IH]; simpl; [done|].
  destruct (String.eqb (Token.name t) n) eqn:E.
  - apply String.eqb_eq in E. exfalso. apply Hn. simpl. rewrite E. left.
  - apply IH. intros Hin. apply Hn. simpl. by right.
Qed.

Lemma names_elem n T :
  n ∈ Detector.names T <-> exists t, t ∈ T /\ Token.name t = n.
Proof.
  unfold Detector.names. rewrite first_seen_elem, list_elem_of_fmap.
  split; intros (t & ? & ?); exists t; done.
Qed.

Lemma names_snoc T t :
  Detector.names (T ++ [t])
  = if decide (Token.name t ∈ Detector.names T) then Detector.names T
    else Detector.names T ++ [Token.name t].
Proof.
  unfold Detector.names. rewrite map_app. cbn [map]. rewrite first_seen_snoc.
  destruct (decide (Token.name t ∈ map Token.name T)) as [Hin|Hin].
  - rewrite decide_True; [done | by apply first_seen_elem].
  - rewrite decide_False; [done | by rewrite first_seen_elem].
Qed.

Lemma collect_groups T t :
  JsObject.inherited (Token.name t) = false ->
  collect (Detector.groups T) t = Normal (Detector.groups (T ++ [t])).
Proof.
  intros Hproto.
  assert (Heq : forall k, k <> Token.name t ->
            Detector.named k (T ++ [t]) = Detector.named k T).
  { intros k Hk. rewrite named_snoc.
    destruct (String.eqb (Token.name t) k) eqn:E; [|by rewrite app_nil_r].
    apply String.eqb_eq in E. congruence. }
  assert (Hsame : Detector.named (Token.name t) (T ++ [t])
                  = Detector.named (Token.name t) T ++ [t]).
  { by rewrite named_snoc, String.eqb_refl. }
  unfold collect, JsObject.get, Detector.groups.
  rewrite names_snoc, own_tabulated.
  destruct (decide (Token.name t ∈ Detector.names T)) as [Hin|Hin].
  - rewrite own_tabulated, decide_True by done.
    f_equal. apply set_tabulated; auto. apply first_seen_NoDup.
  - rewrite Hproto.
    assert (Hown : JsObject.own (Token.name t)
              (map (fun n => (n, Detector.named n T)) (Detector.names T)) = None).
    { by rewrite own_tabulated, decide_False. }
    rewrite set_fresh, own_snoc by done.
    rewrite set_snoc by done.
    rewrite map_app. cbn [map]. rewrite Hsame, named_nil by done.
    cbn [app]. do 2 f_equal. symmetry. apply map_ext_in. intros k Hk.
    rewrite Heq; [done|]. intros ->. apply Hin. by apply list_elem_of_In.
Qed.

Lemma collectAll_app T T' o :
  collectAll (T ++ T') o
  = match collectAll T o with
    | Normal o' => collectAll T' o'
    | Throw e => Throw e
    end.
Proof.
  revert o. induction T as [|t T IH]; intros o; simpl; [done|].
  destruct (collect o t); [apply IH | done].
Qed.

Lemma collectAll_groups T :
  (forall t, t ∈ T -> JsObject.inherited (Token.name t) = false) ->
  collectAll T [] = Normal (Detector.groups T).
Proof.
  induction T as [|t T IH] using rev_ind; intros Hproto; [done|].
  rewrite collectAll_app, IH.
  - simpl. rewrite collect_groups; [done|]. apply Hproto.
    rewrite elem_of_app, list_elem_of_singleton. by right.
  - intros t' Ht'. apply Hproto. rewrite elem_of_app. by left.
Qed.

End DetectorLemmas.

Section OrderLemmas.
Context `{Host}.

Lemma list_filter_partition {A} (p : A -> bool) (l : list A) :
  List.filter p l ++ List.filter (fun x => negb (p x)) l ≡ₚ l.
Proof.
  induction l as [|x l IH]; simpl; [done|].
  destruct (p x); simpl.
  - by constructor.
  - rewrite <- Permutation_middle. by constructor.
Qed.

Lemma key_order_Permutation ks : JsObject.key_order ks ≡ₚ ks.
Proof.
  unfold JsObject.key_order. rewrite merge_sort_Permutation.
  apply list_filter_partition.
Qed.

Lemma list_filter_nil {A} (p : A -> bool) (l : list A) :
  (forall x, x ∈ l -> p x = false) -> List.filter p l = [].
Proof.
  induction l as [|y l IH]; simpl; intros Hp; [done|].
  rewrite Hp by left. apply IH. intros x Hx. apply Hp. by right.
Qed.

Lemma key_order_no_index ks :
  (forall k, k ∈ ks -> JsObject.is_index k = false) ->
  JsObject.key_order ks = ks.
Proof.
  intros Hks. unfold JsObject.key_order.
  rewrite list_filter_nil by done. simpl.
  apply list_filter_id. intros k Hk. by rewrite Hks.
Qed.

Lemma omap_select {A B} (f : A -> option B) (p : A -> bool) (g : A -> B) l :
  (forall x, x ∈ l -> f x = if p x then Some (g x) else None) ->
  omap f l = map g (List.filter p l).
Proof.
  induction l as [|x l IH]; intros Hf; [done|].
  assert (IH' : omap f l = map g (List.filter p l)).
  { apply IH. intros y Hy. apply Hf. by right. }
  cbn. rewrite Hf by left. fold (omap f l). rewrite IH'.
  by destruct (p x).
Qed.

Lemma collisionMessages_groups T :
  collisionMessages (Detector.groups T)
  = map (fun n => collisionMessage n (Detector.named n T))
      (Detector.colliding_names T).
Proof.
  unfold collisionMessages, Detector.colliding_names, JsObject.keys.
  assert (Hkeys : map fst (Detector.groups T) = Detector.names T).
  { unfold Detector.groups. rewrite map_map. simpl. apply map_id. }
  rewrite Hkeys. apply omap_select. intros n Hn.
  rewrite key_order_Permutation in Hn.
  unfold warningOf, Detector.groups, Detector.colliding.
  by rewrite own_tabulated, decide_True.
Qed.

Lemma colliding_named n T :
  Detector.colliding T n = true <-> 2 <= length (Detector.named n T).
Proof. unfold Detector.colliding. rewrite Nat.ltb_lt. lia. Qed.

Lemma colliding_is_name n T :
  Detector.colliding T n = true -> n ∈ Detector.names T.
Proof.
  intros Hc. destruct (decide (n ∈ Detector.names T)) as [|Hn]; [done|].
  apply colliding_named in Hc. rewrite named_nil in Hc by done.
  simpl in Hc. lia.
Qed.

End OrderLemmas.

(** ** The claims *)

Section Claims.
Context `{Host}.

Lemma console_app w events d fl g :
  console (World.mk d fl g (World.trace w ++ events))
  = console w ++ omap logged events.
Proof. unfold console. simpl. apply omap_app. Qed.

Lemma fetch_flushed k (b : bool) g :
  k <> GroupMessages.GROUP.FilteredOutputReferences ->
  GroupMessages.fetchMessages k
    (if b
     then GroupMessages.clear GroupMessages.GROUP.FilteredOutputReferences g
     else g)
  = GroupMessages.fetchMessages k g.
Proof. intros Hk. destruct b; [|done]. by apply fetch_clear_ne. Qed.

Lemma ensureEvents_silent dirname w : omap logged (ensureEvents dirname w) = [].
Proof. unfold ensureEvents. by destruct (fs.exists_in dirname w). Qed.

Lemma omap_logged_ConsoleLog lines : omap logged (map ConsoleLog lines) = lines.
Proof. induction lines as [|l lines IH]; [done|]. cbn. fold (omap logged (map ConsoleLog lines)). by rewrite IH. Qed.

Lemma nameCollisions_groups allProperties :
  (forall t, t ∈ default [] allProperties ->
             JsObject.inherited (Token.name t) = false) ->
  nameCollisions allProperties = Normal (Detector.groups (default [] allProperties)).
Proof.
  destruct allProperties as [T|]; simpl; intros Hproto; [|done].
  by apply collectAll_groups.
Qed.

(** C5 (amended): for every token list [T] none of whose names is a
    property inherited from [Object.prototype], the collision check puts one
    message in the group of the destination per distinct name shared by two
    or more tokens of [T], and returns the number of these names; each
    message lists the dotted path and the value of every token with that
    name, in the order of [T]; the messages follow the order of
    [Object.keys]: names that are array indices first, in ascending numeric
    order, then the other names in first-seen order, which is plain
    first-seen order when no name is an array index. *)
Theorem collision_check_report destination T w :
  (forall t, t ∈ T -> JsObject.inherited (Token.name t) = false) ->
  let reported := Detector.colliding_names T in
  let run := checkCollisions destination (Some T) w in
  fst run = Normal (length reported)
  /\ GroupMessages.fetchMessages (PROPERTY_NAME_COLLISION_WARNINGS destination)
       (World.groupedMessages (snd run))
     = map (fun n =>
              "Output name " +:+ chalk [keyword "orangered"; bold] n
              +:+ " was generated by:" +:+ nl +:+ "        "
              +:+ String.concat (nl +:+ "        ")
                    (map (fun t =>
                            chalk [keyword "orangered"]
                              (String.concat "." (Token.path t))
                            +:+ "   "
                            +:+ chalk [keyword "darkorange"] (Token.value t))
                       (Detector.named n T)))
         reported
  /\ NoDup reported
  /\ (forall n, n ∈ reported <-> 2 <= length (Detector.named n T))
  /\ reported
     = List.filter (Detector.colliding T)
         (merge_sort JsObject.index_le
            (List.filter JsObject.is_index (Detector.names T))
          ++ List.filter (fun n => negb (JsObject.is_index n)) (Detector.names T))
  /\ ((forall t, t ∈ T -> JsObject.is_index (Token.name t) = false) ->
      reported = Detector.colliding_names_first_seen T).
Proof.
  intros Hproto reported run. subst run.
  rewrite checkCollisions_eq, (nameCollisions_groups (Some T)) by done.
  simpl. rewrite fetch_rebuilt_eq, collisionMessages_groups.
  rewrite length_map. fold reported.
  split; [done|]. split; [done|]. split; [|split; [|split; [done|]]].
  - apply NoDup_list_filter.
    rewrite key_order_Permutation. apply first_seen_NoDup.
  - intros n. unfold reported, Detector.colliding_names.
    rewrite elem_of_list_filter, key_order_Permutation, <- colliding_named.
    split; [tauto|]. intros Hc. split; [|done]. by apply colliding_is_name.
  - intros Hindex. unfold reported, Detector.colliding_names,
      Detector.colliding_names_first_seen.
    rewrite key_order_no_index; [done|].
    intros k (t & Ht & <-)%names_elem. by apply Hindex.
Qed.


(** The file spec fails the checks of lines 34-37. *)
Lemma buildFile_invalid file platform dictionary w :
  typeof (File.format file) <> "function"
  \/ typeof (File.destination file) <> "string" ->
  buildFile file platform dictionary w
  = (Throw (JsError (if String.eqb (typeof (File.format file)) "function"
                     then "Please enter a valid destination"
                     else "Please enter a valid file format")), w).
Proof.
  intros Hbad. unfold buildFile.
  destruct (String.eqb (typeof (File.format file)) "function") eqn:Ef; [|done].
  destruct (String.eqb (typeof (File.destination file)) "string") eqn:Ed;
    [|done].
  apply String.eqb_eq in Ef, Ed. tauto.
Qed.

(** C3 (amended): when the format of the file spec is not a function or its
    destination is not a string, [buildFile] throws an error whose message
    names the invalid field, the format first, and leaves the world as it
    was: no filesystem call, no directory, no line printed, no message
    recorded.  The empty string passes as a destination. *)
Theorem invalid_file_spec_rejected file platform dictionary w :
  typeof (File.format file) <> "function"
  \/ typeof (File.destination file) <> "string" ->
  exists message,
    buildFile file platform dictionary w = (Throw (JsError message), w)
    /\ (typeof (File.format file) <> "function" ->
        message = "Please enter a valid file format")
    /\ (typeof (File.format file) = "function" ->
        message = "Please enter a valid destination").
Proof.
  intros Hbad. eexists. split; [by apply buildFile_invalid|].
  destruct (String.eqb (typeof (File.format file)) "function") eqn:Ef.
  - apply String.eqb_eq in Ef. tauto.
  - apply String.eqb_neq in Ef. tauto.
Qed.



(** An emission that gets past the write went through every stage. *)
Lemma buildFile_emits file platform dictionary w f destination :
  File.format file = JsFunction f ->
  File.destination file = JsString destination ->
  fst (buildFile file platform dictionary w) = Normal JsUndefined ->
  let fullDestination := fullDestinationOf platform destination in
  let dirname := path.dirname fullDestination in
  let outcome := formatted f file platform dictionary in
  exists obj content,
    nameCollisions
      (FilterResult.allProperties
         (filterProperties dictionary (File.filter file))) = Normal obj
    /\ FormatOutcome.completion outcome = Normal content
    /\ fs.writeError fullDestination (ensured dirname w) = None
    /\ let g :=
         GroupMessages.add_all GroupMessages.GROUP.FilteredOutputReferences
           (FormatOutcome.references outcome)
           (rebuilt destination (collisionMessages obj)
              (World.groupedMessages w)) in
       let references :=
         GroupMessages.fetchMessages
           GroupMessages.GROUP.FilteredOutputReferences (World.groupedMessages w)
         ++ FormatOutcome.references outcome in
       snd (buildFile file platform dictionary w)
       = World.mk (ensuredDirs dirname w)
           (<[fullDestination := content]> (World.files w))
           (if Nat.ltb 0 (length references)
            then GroupMessages.clear
                   GroupMessages.GROUP.FilteredOutputReferences g
            else g)
           (World.trace w ++ ensureEvents dirname w
            ++ [FormatCall (formatArgsOf file platform dictionary) platform file;
                FsWriteFileSync fullDestination content]
            ++ map ConsoleLog
                 (reportLines (FunctionObject.nested (function_object f))
                    destination fullDestination
                    (length (collisionMessages obj)) (collisionMessages obj)
                    references)).
Proof.
  intros Hf Hd. rewrite (buildFile_valid _ _ _ _ _ _ Hf Hd). cbn zeta.
  destruct (propertiesEmpty _) as [[|]|e]; [done| |done].
  destruct (nameCollisions _) as [obj|e]; [|done].
  destruct (FormatOutcome.completion _) as [content|e] eqn:Hc; [|done].
  destruct (fs.writeError _ _) as [e|] eqn:Hwe; [done|].
  intros _. exists obj, content. split; [done|]. split; [done|].
  split; [done|].
  cbn [snd]. rewrite fetch_add_all_eq, fetch_rebuilt_ne
    by apply collision_group_not_references.
  by rewrite <- app_assoc.
Qed.

(** C6: for every emission that writes a file, the file holds what the
    formatter returned, and exactly one line, the styled tick followed by
    the full destination, is printed if and only if (nested or no
    collision) and no reference loss; otherwise the lines printed are the
    warning sign followed by the full destination, then the collision block
    when the collision count is positive, then the reference-loss block when
    the reference-loss count is positive. *)
Theorem report_follows_counts file platform dictionary w f destination :
  File.format file = JsFunction f ->
  File.destination file = JsString destination ->
  fst (buildFile file platform dictionary w) = Normal JsUndefined ->
  let w' := snd (buildFile file platform dictionary w) in
  let fullDestination :=
    default "" (Platform.buildPath platform) +:+ destination in
  let outcome := formatted f file platform dictionary in
  let nested := truthy (FunctionObject.nested (function_object f)) in
  let collisionMessages :=
    GroupMessages.fetchMessages (PROPERTY_NAME_COLLISION_WARNINGS destination)
      (World.groupedMessages w') in
  let references :=
    GroupMessages.fetchMessages GroupMessages.GROUP.FilteredOutputReferences
      (World.groupedMessages w)
    ++ FormatOutcome.references outcome in
  let collisionCount := length collisionMessages in
  let referenceCount := length references in
  let success :=
    (nested || Nat.eqb collisionCount 0) && Nat.eqb referenceCount 0 in
  let tick := chalk [bold; green] ("✔︎ " +:+ fullDestination) in
  let warning := "⚠️ " +:+ fullDestination in
  let collisionTitle :=
    "While building " +:+ chalk [keyword "orangered"; bold] destination
    +:+ ", token collisions were found; output may be unexpected." in
  let referenceTitle :=
    "While building " +:+ chalk [keyword "orangered"; bold] destination
    +:+ ", filtered out token references were found; output may be unexpected. Here are the references that are used but not defined in the file" in
  let collisionBlock :=
    chalk [keyword "darkorange"; bold]
      (collisionTitle
       +:+ nl +:+ "    " +:+ String.concat (nl +:+ "    ") collisionMessages
       +:+ nl
       +:+ chalk [keyword "orange"]
             (String.concat (nl +:+ "    ")
                [ "This many-to-one issue is usually caused by some combination of:";
                  "* conflicting or similar paths/names in property definitions";
                  "* platform transforms/transformGroups affecting names, especially when removing specificity";
                  "* overly inclusive file filters" ])) in
  let referenceBlock :=
    chalk [keyword "darkorange"; bold]
      (referenceTitle
       +:+ nl +:+ "    " +:+ String.concat (nl +:+ "    ") references
       +:+ nl
       +:+ chalk [keyword "orange"]
             (String.concat (nl +:+ "    ")
                [ "This is caused when combining a filter and `outputReferences`." ])) in
  exists content,
    FormatOutcome.completion outcome = Normal content
    /\ World.files w' = <[fullDestination := content]> (World.files w)
    /\ console w'
       = console w
         ++ (if success
             then [tick]
             else
               warning
               :: (if Nat.ltb 0 collisionCount then [collisionBlock] else [])
               ++ (if Nat.ltb 0 referenceCount then [referenceBlock] else []))
    /\ (console w' = console w ++ [tick] <-> success = true)
    /\ ((exists line, console w' = console w ++ [line]) <-> success = true).
Proof.
  intros Hf Hd Hrun.
  destruct (buildFile_emits _ _ _ _ _ _ Hf Hd Hrun)
    as (obj & content & _ & Hc & _ & Hw).
  cbn zeta in Hw. rewrite <- fullDestinationOf_eq. cbn zeta. rewrite Hw.
  exists content. cbn [World.files World.groupedMessages].
  split; [done|]. split; [done|].
  rewrite (fetch_flushed (PROPERTY_NAME_COLLISION_WARNINGS destination))
    by apply collision_group_not_references.
  rewrite (fetch_add_all_ne _ (PROPERTY_NAME_COLLISION_WARNINGS destination)),
    fetch_rebuilt_eq
    by apply not_eq_sym, collision_group_not_references.
  rewrite console_app, !omap_app, ensureEvents_silent.
  cbn [omap list_omap app logged]. rewrite omap_logged_ConsoleLog.
  unfold reportLines, successLine, warningHeader, collisionWarning,
    referenceWarning.
  split; [reflexivity|].
  destruct (length (collisionMessages obj)) as [|c];
    destruct (length (_ ++ _)) as [|r];
    destruct (truthy (FunctionObject.nested (function_object f)));
    cbn [orb andb Nat.eqb Nat.ltb Nat.leb app].
  all: split; split; try done.
  all: try (intros Heq%app_inv_head; discriminate Heq).
  all: try (intros [line Heq%app_inv_head]; discriminate Heq).
  all: intros _; eexists; reflexivity.
Qed.


(** C7: for every successful emission, the output path is the build path of
    the platform (the empty string when it has none) followed by the
    destination, and the file at that path holds exactly the string the
    formatter returned, whatever was there before; no other file changes. *)
Theorem written_file_is_formatter_output
    file platform dictionary w f destination :
  File.format file = JsFunction f ->
  File.destination file = JsString destination ->
  fst (buildFile file platform dictionary w) = Normal JsUndefined ->
  let w' := snd (buildFile file platform dictionary w) in
  let fullDestination :=
    default "" (Platform.buildPath platform) +:+ destination in
  exists content,
    FormatOutcome.completion (formatted f file platform dictionary)
    = Normal content
    /\ World.files w' !! fullDestination = Some content
    /\ (forall p, p <> fullDestination ->
                  World.files w' !! p = World.files w !! p)
    /\ FsWriteFileSync fullDestination content ∈ World.trace w'.
Proof.
  intros Hf Hd Hrun.
  destruct (buildFile_emits _ _ _ _ _ _ Hf Hd Hrun)
    as (obj & content & _ & Hc & _ & Hw).
  cbn zeta in Hw. rewrite <- fullDestinationOf_eq. cbn zeta. rewrite Hw.
  exists content. cbn [World.files World.trace].
  split; [done|]. split; [apply lookup_insert_eq|].
  split; [intros p Hp; by apply lookup_insert_ne|].
  rewrite !elem_of_app, !elem_of_cons. tauto.
Qed.


(** C10: for every emission, the formatter supplied in the file spec is
    called with the argument bundle, the platform and the file, and its
    code runs with the file as [this]; what it returns is written.  The
    nested marker used by the report is the one of the supplied function: a
    bound copy has none. *)
Theorem formatter_called_on_file file platform dictionary w f destination :
  File.format file = JsFunction f ->
  File.destination file = JsString destination ->
  fst (buildFile file platform dictionary w) = Normal JsUndefined ->
  let w' := snd (buildFile file platform dictionary w) in
  let fullDestination :=
    default "" (Platform.buildPath platform) +:+ destination in
  let supplied := function_object f in
  let bundle :=
    createFormatArgs
      (FilteredDictionary.mk dictionary
         (FilterResult.properties (filterProperties dictionary (File.filter file)))
         (FilterResult.allProperties (filterProperties dictionary (File.filter file)))
         (FilterResult.properties (filterProperties dictionary (File.filter file)))
         (FilterResult.allProperties (filterProperties dictionary (File.filter file)))
         (Dictionary.properties dictionary))
      platform file in
  let outcome := FunctionObject.code supplied (ThisFile file) bundle platform file in
  FormatCall bundle platform file ∈ World.trace w'
  /\ (exists content,
        FormatOutcome.completion outcome = Normal content
        /\ World.files w' !! fullDestination = Some content)
  /\ FunctionObject.nested (FunctionObject.bind supplied file) = JsUndefined
  /\ (truthy (FunctionObject.nested supplied) = true ->
      GroupMessages.fetchMessages GroupMessages.GROUP.FilteredOutputReferences
        (World.groupedMessages w) = [] ->
      FormatOutcome.references outcome = [] ->
      console w' = console w ++ [successLine fullDestination]).
Proof.
  intros Hf Hd Hrun w' fullDestination supplied bundle outcome.
  destruct (buildFile_emits _ _ _ _ _ _ Hf Hd Hrun)
    as (obj & content & _ & Hc & _ & Hw).
  cbn zeta in Hw. subst w'. rewrite Hw.
  unfold fullDestination. rewrite <- fullDestinationOf_eq.
  cbn [World.files World.trace].
  split; [|split; [|split; [done|]]].
  - rewrite !elem_of_app, !elem_of_cons. tauto.
  - exists content. split; [done | apply lookup_insert_eq].
  - intros Hnested Hpending Hrefs.
    rewrite console_app, !omap_app, ensureEvents_silent.
    cbn [omap list_omap app logged]. f_equal.
    rewrite omap_logged_ConsoleLog. unfold reportLines.
    fold supplied. rewrite Hnested, Hpending.
    change (formatted f file platform dictionary) with outcome.
    by rewrite Hrefs.
Qed.


Ltac consoles :=
  unfold console; cbn [World.trace];
  rewrite ?omap_app, ?ensureEvents_silent, ?omap_logged_ConsoleLog;
  cbn [omap list_omap logged app];
  rewrite ?omap_logged_ConsoleLog, ?app_nil_r, <- ?app_assoc.

Lemma fetch_rebuilt destination k ms g :
  GroupMessages.fetchMessages k (rebuilt destination ms g)
  = if decide (k = PROPERTY_NAME_COLLISION_WARNINGS destination) then ms
    else GroupMessages.fetchMessages k g.
Proof.
  case_decide as Hk.
  - subst k. apply fetch_rebuilt_eq.
  - by apply fetch_rebuilt_ne.
Qed.

Lemma chain_head p : fs.is_root p = false -> p ∈ fs.chain (S (String.length p)) p.
Proof. intros Hroot. simpl. rewrite Hroot. left. Qed.

Lemma ensured_exists dirname w fl g tr :
  (forall p, is_Some (World.files w !! p) -> is_Some (fl !! p)) ->
  fs.exists_in dirname (World.mk (ensuredDirs dirname w) fl g tr) = true.
Proof.
  intros Hfl. unfold ensuredDirs.
  destruct (fs.exists_in dirname w) eqn:Hex;
    unfold fs.exists_in in *; cbn [World.dirs World.files] in *;
    destruct (fs.is_root dirname) eqn:Hroot; try done; cbn [orb] in *.
  - apply orb_true_iff in Hex as [Hd|Hf]; apply orb_true_iff; [by left|].
    right. apply bool_decide_eq_true in Hf. apply bool_decide_eq_true.
    by apply Hfl.
  - apply orb_true_iff. left. apply bool_decide_eq_true.
    apply elem_of_union. right. apply elem_of_list_to_set.
    by apply chain_head.
Qed.

(** The directory step of a second call finds the directory. *)
Lemma ensured_again dirname w fl g tr :
  (forall p, is_Some (World.files w !! p) -> is_Some (fl !! p)) ->
  ensuredDirs dirname (World.mk (ensuredDirs dirname w) fl g tr)
  = ensuredDirs dirname w.
Proof.
  intros Hfl. unfold ensuredDirs at 1. by rewrite ensured_exists.
Qed.

Lemma writeError_None p w :
  fs.writeError p w = None
  <-> String.eqb p "" = false
      /\ fs.is_directory p w || fs.ends_with_slash p = false
      /\ fs.is_directory (path.dirname p) w = true.
Proof.
  unfold fs.writeError.
  destruct (String.eqb p "");
    [split; [done | by intros (? & _)]|].
  destruct (fs.is_directory p w || fs.ends_with_slash p);
    [split; [done | by intros (_ & ? & _)]|].
  destruct (fs.is_directory (path.dirname p) w); [done|].
  destruct (fs.exists_in (path.dirname p) w);
    (split; [done | by intros (_ & _ & ?)]).
Qed.

Lemma writeError_fs p w w' :
  World.dirs w' = World.dirs w -> World.files w' = World.files w ->
  fs.writeError p w' = fs.writeError p w.
Proof.
  intros Hd Hf. unfold fs.writeError, fs.is_directory, fs.exists_in.
  by rewrite Hd, Hf.
Qed.

Lemma writeError_None_dirs p w w' :
  World.dirs w' = World.dirs w ->
  fs.writeError p w = None -> fs.writeError p w' = None.
Proof.
  intros Hd. rewrite !writeError_None. unfold fs.is_directory.
  by rewrite Hd.
Qed.

Lemma insert_keeps_files (fl : gmap string string) p content q :
  is_Some (fl !! q) -> is_Some (<[p := content]> fl !! q).
Proof.
  intros Hq. destruct (decide (p = q)) as [->|Hne].
  - rewrite lookup_insert_eq. eauto.
  - by rewrite lookup_insert_ne.
Qed.

(** A second call with the same function objects. *)
Lemma repeated_call file platform dictionary w :
  let first := buildFile file platform dictionary w in
  let second := buildFile file platform dictionary (snd first) in
  fst second = fst first
  /\ World.files (snd second) = World.files (snd first)
  /\ (forall k,
        k <> GroupMessages.GROUP.FilteredOutputReferences ->
        GroupMessages.fetchMessages k (World.groupedMessages (snd second))
        = GroupMessages.fetchMessages k (World.groupedMessages (snd first)))
  /\ (GroupMessages.fetchMessages GroupMessages.GROUP.FilteredOutputReferences
        (World.groupedMessages w) = [] ->
      exists lines,
        console (snd first) = console w ++ lines
        /\ console (snd second) = console (snd first) ++ lines).
Proof.
  intros first second. subst first second.
  destruct (String.eqb (typeof (File.format file)) "function") eqn:Ef;
    [destruct (String.eqb (typeof (File.destination file)) "string") eqn:Ed|].
  2: { rewrite !buildFile_invalid
         by (right; intros E; by rewrite E in Ed).
       cbn. repeat split; try done. intros _. exists [].
       by rewrite !app_nil_r. }
  2: { rewrite !buildFile_invalid
         by (left; intros E; by rewrite E in Ef).
       cbn. repeat split; try done. intros _. exists [].
       by rewrite !app_nil_r. }
  apply typeof_function in Ef as [f Hf].
  apply typeof_string in Ed as [destination Hd].
  rewrite (buildFile_valid _ _ _ w _ _ Hf Hd). cbn zeta.
  set (full := fullDestinationOf platform destination).
  set (dirname := path.dirname full).
  destruct (propertiesEmpty _) as [[|]|e] eqn:He.
  - cbn [snd]. rewrite (buildFile_valid _ _ _ _ _ _ Hf Hd). cbn zeta.
    rewrite He. cbn [fst snd World.files World.groupedMessages World.trace].
    split; [done|]. split; [done|]. split; [done|]. intros _.
    exists [chalk [keyword "darkorange"]
              ("No properties for " +:+ destination +:+ ". File not created.")].
    split; consoles; reflexivity.
  - destruct (nameCollisions _) as [obj|e] eqn:Hn.
    + destruct (FormatOutcome.completion _) as [content|e] eqn:Hc.
      * set (r := FormatOutcome.references (formatted f file platform dictionary)).
        set (g := World.groupedMessages w) in *.
        set (g3 := GroupMessages.add_all GroupMessages.GROUP.FilteredOutputReferences r
                     (rebuilt destination (collisionMessages obj) g)).
        assert (H3 : GroupMessages.fetchMessages GroupMessages.GROUP.FilteredOutputReferences g3
                     = GroupMessages.fetchMessages
                         GroupMessages.GROUP.FilteredOutputReferences g ++ r).
        { unfold g3. by rewrite fetch_add_all_eq, fetch_rebuilt_ne
            by apply collision_group_not_references. }
        destruct (fs.writeError full (ensured dirname w)) as [e|] eqn:Hwe.
        -- cbn [snd]. rewrite (buildFile_valid _ _ _ _ _ _ Hf Hd). cbn zeta.
           rewrite He, Hn, Hc. fold full dirname.
           rewrite (writeError_fs full (ensured dirname w)), Hwe;
             [| unfold ensured; cbn [World.dirs]; by apply ensured_again
              | done].
           cbn [fst snd World.files World.groupedMessages World.trace].
           split; [done|]. split; [done|]. split.
           ++ intros k Hk. fold r. rewrite fetch_add_all_ne by done.
              rewrite (fetch_rebuilt _ k). case_decide as Hkey; [|done].
              subst k. unfold g3. rewrite fetch_add_all_ne by done.
              by rewrite fetch_rebuilt_eq.
           ++ intros _. exists []. split; consoles; reflexivity.
        -- cbn [snd]. rewrite (buildFile_valid _ _ _ _ _ _ Hf Hd). cbn zeta.
           rewrite He, Hn, Hc. fold full dirname.
           rewrite (writeError_None_dirs full (ensured dirname w));
             [| unfold ensured; cbn [World.dirs];
                by apply ensured_again, insert_keeps_files
              | done].
           cbn [fst snd World.files World.groupedMessages World.trace].
           fold r g3. rewrite H3.
           set (pending := GroupMessages.fetchMessages
                             GroupMessages.GROUP.FilteredOutputReferences g).
           set (g1 := if Nat.ltb 0 (length (pending ++ r))
                      then GroupMessages.clear GroupMessages.GROUP.FilteredOutputReferences g3 else g3).
           assert (H1 : GroupMessages.fetchMessages GroupMessages.GROUP.FilteredOutputReferences g1 = []).
           { unfold g1. destruct (pending ++ r) as [|m l] eqn:Hl; cbn.
             - by rewrite H3.
             - apply fetch_clear_eq. }
           set (g3' := GroupMessages.add_all GroupMessages.GROUP.FilteredOutputReferences r
                         (rebuilt destination (collisionMessages obj) g1)).
           assert (H3' : GroupMessages.fetchMessages GroupMessages.GROUP.FilteredOutputReferences g3' = r).
           { unfold g3'. rewrite fetch_add_all_eq, fetch_rebuilt_ne
               by apply collision_group_not_references.
             by rewrite H1. }
           rewrite H3'.
           split; [done|]. split; [apply insert_insert_eq|]. split.
           ++ intros k Hk. fold g1.
              rewrite (fetch_flushed k) by done.
              unfold g3'. rewrite fetch_add_all_ne by done.
              rewrite fetch_rebuilt. case_decide as Hkey.
              ** subst k. unfold g1. rewrite (fetch_flushed _) by done.
                 unfold g3. rewrite fetch_add_all_ne by done.
                 by rewrite fetch_rebuilt_eq.
              ** done.
           ++ intros Hpending. rewrite Hpending. cbn [app].
              exists (reportLines (FunctionObject.nested (function_object f))
                        destination full
                        (length (collisionMessages obj)) (collisionMessages obj) r).
              split; consoles; reflexivity.
      * cbn [snd]. rewrite (buildFile_valid _ _ _ _ _ _ Hf Hd). cbn zeta.
        rewrite He, Hn, Hc.
        cbn [fst snd World.files World.groupedMessages World.trace].
        split; [done|]. split; [done|]. split.
        -- intros k Hk. rewrite !fetch_add_all_ne by done.
           rewrite (fetch_rebuilt _ k). case_decide as Hkey.
           ++ subst k. by rewrite fetch_rebuilt_eq.
           ++ by rewrite fetch_add_all_ne.
        -- intros _. exists []. split; consoles; reflexivity.
    + cbn [snd]. rewrite (buildFile_valid _ _ _ _ _ _ Hf Hd). cbn zeta.
      rewrite He, Hn.
      cbn [fst snd World.files World.groupedMessages World.trace].
      split; [done|]. split; [done|]. split; [done|].
      intros _. exists []. split; consoles; reflexivity.
  - cbn [snd]. rewrite (buildFile_valid _ _ _ _ _ _ Hf Hd). cbn zeta.
    rewrite He. cbn [fst snd World.files World.groupedMessages World.trace].
    split; [done|]. split; [done|]. split; [done|].
    intros _. exists []. split; consoles; reflexivity.
Qed.

End Claims.

(** ** The token filter of the spec *)





(** C1, at an input where the code departs from it: with a formatter marked
    as nested, two tokens of the same name and one reference-loss message
    pending, [buildFile] prints the collision warning between the warning
    header and the reference-loss warning. *)
Theorem nested_format_prints_collision_warning :
  truthy (FunctionObject.nested (Sample.functions 1)) = true
  /\ console
       (snd (@buildFile Sample.host (Sample.tokens_json (JsFunction 1))
               Sample.no_platform Sample.colors Sample.pending))
     = [ warningHeader "build/tokens.json";
         @collisionWarning Sample.host "build/tokens.json"
           [@collisionMessage Sample.host "color-a"
              [Sample.color_a; Sample.color_b]];
         @referenceWarning Sample.host "build/tokens.json" ["color.base"] ].
Proof. split; vm_compute; reflexivity. Qed.

(** ** Two calls in succession *)

(** A call made when the function objects are [later] is the call made now
    if the format of the file has the same nested marker and, on the
    arguments of this call, the same outcome. *)
Lemma buildFile_later `{H : Host} (later : FunRef -> FunctionObject.t)
    file platform dictionary w :
  (forall f,
     File.format file = JsFunction f ->
     FunctionObject.nested (later f)
     = FunctionObject.nested (function_object f)
     /\ FunctionObject.code (later f) (ThisFile file)
          (formatArgsOf file platform dictionary) platform file
        = FunctionObject.code (function_object f) (ThisFile file)
            (formatArgsOf file platform dictionary) platform file) ->
  @buildFile (Build_Host chalk filterProperties later)
    file platform dictionary w
  = buildFile file platform dictionary w.
Proof.
  intros Hsame.
  destruct (String.eqb (typeof (File.format file)) "function") eqn:Ef;
    [destruct (String.eqb (typeof (File.destination file)) "string") eqn:Ed|].
  2: { rewrite !buildFile_invalid
         by (right; intros E; by rewrite E in Ed). done. }
  2: { rewrite !buildFile_invalid
         by (left; intros E; by rewrite E in Ef). done. }
  apply typeof_function in Ef as [f Hf].
  apply typeof_string in Ed as [destination Hd].
  destruct (Hsame f Hf) as [Hnested Hcode].
  rewrite (@buildFile_valid (Build_Host chalk filterProperties later)
             _ _ _ w _ _ Hf Hd).
  rewrite (buildFile_valid _ _ _ w _ _ Hf Hd). cbn zeta.
  change (@formatted (Build_Host chalk filterProperties later)
            f file platform dictionary)
    with (FunctionObject.code (later f) (ThisFile file)
            (formatArgsOf file platform dictionary) platform file).
  change (@function_object (Build_Host chalk filterProperties later) f)
    with (later f).
  rewrite Hcode, Hnested. reflexivity.
Qed.

(** C8 (amended): when the format of the file behaves at the second call
    as at the first (same nested marker; on the arguments of the call, the
    same returned string or exception and the same recorded reference-loss
    messages), calling [buildFile] twice in succession with the same
    arguments gives the same result, leaves the same files with the same
    content, and leaves every message group other than the reference-loss
    group as the first call left it: the collision group of the destination
    is cleared and rebuilt by each call.  When moreover no reference-loss
    message is pending before the first call, the two calls print the same
    lines.  And an emission that writes its file leaves the reference-loss
    group empty; the messages that were pending before it are listed,
    followed by those its formatter recorded, in the reference-loss block
    that is the last line it prints. *)
Theorem repeated_emission_same_output `{H : Host}
    (later : FunRef -> FunctionObject.t) file platform dictionary w :
  let first := buildFile file platform dictionary w in
  let second :=
    @buildFile (Build_Host chalk filterProperties later)
      file platform dictionary (snd first) in
  let pending :=
    GroupMessages.fetchMessages GroupMessages.GROUP.FilteredOutputReferences
      (World.groupedMessages w) in
  ((forall f,
      File.format file = JsFunction f ->
      FunctionObject.nested (later f)
      = FunctionObject.nested (function_object f)
      /\ FunctionObject.code (later f) (ThisFile file)
           (formatArgsOf file platform dictionary) platform file
         = FunctionObject.code (function_object f) (ThisFile file)
             (formatArgsOf file platform dictionary) platform file) ->
   fst second = fst first
   /\ World.files (snd second) = World.files (snd first)
   /\ (forall k,
         k <> GroupMessages.GROUP.FilteredOutputReferences ->
         GroupMessages.fetchMessages k (World.groupedMessages (snd second))
         = GroupMessages.fetchMessages k (World.groupedMessages (snd first)))
   /\ (pending = [] ->
       exists lines,
         console (snd first) = console w ++ lines
         /\ console (snd second) = console (snd first) ++ lines))
  /\ (forall f destination,
        File.format file = JsFunction f ->
        File.destination file = JsString destination ->
        fst first = Normal JsUndefined ->
        let recorded :=
          FormatOutcome.references (formatted f file platform dictionary) in
        let referenceTitle :=
          "While building " +:+ chalk [keyword "orangered"; bold] destination
          +:+ ", filtered out token references were found; output may be unexpected. Here are the references that are used but not defined in the file" in
        let referenceBlock :=
          chalk [keyword "darkorange"; bold]
            (referenceTitle
             +:+ nl +:+ "    "
             +:+ String.concat (nl +:+ "    ") (pending ++ recorded)
             +:+ nl
             +:+ chalk [keyword "orange"]
                   (String.concat (nl +:+ "    ")
                      [ "This is caused when combining a filter and `outputReferences`." ])) in
        GroupMessages.fetchMessages GroupMessages.GROUP.FilteredOutputReferences
          (World.groupedMessages (snd first)) = []
        /\ (pending <> [] ->
            exists lines,
              console (snd first) = console w ++ lines ++ [referenceBlock])).
Proof.
  intros first second pending. split.
  - intros Hsame. subst first second.
    rewrite (buildFile_later later) by exact Hsame.
    apply repeated_call.
  - intros f destination Hf Hd Hrun recorded referenceTitle referenceBlock.
    destruct (buildFile_emits _ _ _ _ _ _ Hf Hd Hrun)
      as (obj & content & _ & _ & _ & Hw).
    cbn zeta in Hw. subst first. rewrite Hw.
    cbn [World.groupedMessages]. fold pending recorded. split.
    + destruct (pending ++ recorded) as [|m l] eqn:Hl; cbn [length Nat.ltb Nat.leb].
      * rewrite fetch_add_all_eq, fetch_rebuilt_ne
          by apply collision_group_not_references.
        exact Hl.
      * apply fetch_clear_eq.
    + intros Hne.
      rewrite console_app, !omap_app, ensureEvents_silent.
      cbn [omap list_omap app logged]. rewrite omap_logged_ConsoleLog.
      unfold reportLines.
      assert (Hlen : Nat.eqb (length (pending ++ recorded)) 0 = false
                     /\ Nat.ltb 0 (length (pending ++ recorded)) = true).
      { destruct pending as [|m l]; [done|]. by cbn. }
      destruct Hlen as [-> ->]. rewrite andb_false_r.
      exists (warningHeader (fullDestinationOf platform destination)
              :: (if Nat.ltb 0 (length (collisionMessages obj))
                  then [collisionWarning destination (collisionMessages obj)]
                  else [])).
      reflexivity.
Qed.

(** ** Inputs at which the claims as written fail *)


(** C3 as written fails: the empty string is accepted as a destination;
    no error is thrown, the filesystem is queried and a line is printed. *)
Lemma empty_destination_accepted :
  let file := File.mk (JsString "") (Some Sample.nothing) (JsFunction 0) in
  let run :=
    @buildFile Sample.host file Sample.no_platform Sample.colors Sample.world in
  fst run = Normal JsNull
  /\ World.trace (snd run)
     = [ FsExistsSync "."; ConsoleLog "No properties for . File not created." ].
Proof. split; vm_compute; reflexivity. Qed.

(** C5 as written fails: names that are array indices are reported in
    ascending numeric order, not in first-seen order; and a token named
    after a member of [Object.prototype] stops the check with a TypeError. *)
Lemma index_names_reported_in_numeric_order :
  let run :=
    @checkCollisions Sample.host "sizes.css" (Some Sample.sizes) Sample.world in
  let reported :=
    GroupMessages.fetchMessages (PROPERTY_NAME_COLLISION_WARNINGS "sizes.css")
      (World.groupedMessages (snd run)) in
  (Detector.colliding_names_first_seen Sample.sizes = ["2"; "1"]
   /\ reported
      = [ @collisionMessage Sample.host "1" [Sample.one_x; Sample.one_y];
          @collisionMessage Sample.host "2" [Sample.two_x; Sample.two_y] ]
   /\ reported
      <> map (fun n => @collisionMessage Sample.host n
                         (Detector.named n Sample.sizes))
           (Detector.colliding_names_first_seen Sample.sizes))
  /\ fst (@checkCollisions Sample.host "sizes.css"
            (Some [Token.mk ["size"; "constructor"] "constructor" "1px"])
            Sample.world)
     = Throw (JsTypeError "nameCollisionObj[propertyName].push is not a function").
Proof.
  split; [split; [|split]|]; try (vm_compute; reflexivity).
  vm_compute. discriminate.
Qed.

(** C8 as written fails: a reference-loss message pending before the first
    call is reported by the first call and not by the second; and a format
    that has come to ignore the tokens by the second call writes another
    content. *)
Lemma repeated_emission_can_differ :
  let file := Sample.tokens_json (JsFunction 0) in
  let first :=
    @buildFile Sample.host file Sample.no_platform Sample.single Sample.pending in
  let second :=
    @buildFile Sample.host file Sample.no_platform Sample.single (snd first) in
  let once :=
    @buildFile Sample.host file Sample.no_platform Sample.single Sample.world in
  let again :=
    @buildFile (Build_Host Sample.plain TokenFilter.filterProperties
                  Sample.later_functions)
      file Sample.no_platform Sample.single (snd once) in
  (console (snd first)
   = [ "⚠️ build/tokens.json";
       "While building build/tokens.json, filtered out token references were found; output may be unexpected. Here are the references that are used but not defined in the file"
       +:+ nl +:+ "    color.base" +:+ nl
       +:+ "This is caused when combining a filter and `outputReferences`." ]
   /\ console (snd second) = console (snd first) ++ ["✔︎ build/tokens.json"])
  /\ (World.files (snd once) !! "build/tokens.json" = Some "color-a=#fff"
      /\ World.files (snd again) !! "build/tokens.json" = Some "{}").
Proof. repeat split; vm_compute; reflexivity. Qed.


(** ** The theorems at sample inputs *)


Lemma invalid_file_spec_rejected_witness :
  let file := Sample.tokens_json JsUndefined in
  typeof (File.format file) <> "function"
  /\ exists message,
       @buildFile Sample.host file Sample.no_platform Sample.colors Sample.world
       = (Throw (JsError message), Sample.world).
Proof.
  intros file.
  assert (Hbad : typeof (File.format file) <> "function"
                 \/ typeof (File.destination file) <> "string").
  { left. simpl. discriminate. }
  split; [simpl; discriminate|].
  destruct (@invalid_file_spec_rejected Sample.host file Sample.no_platform
              Sample.colors Sample.world Hbad) as (message & Hrun & _).
  exists message. exact Hrun.
Defined.


Lemma collision_check_report_witness :
  let T := [Sample.color_a; Sample.color_b] in
  (forall t, t ∈ T -> JsObject.inherited (Token.name t) = false)
  /\ fst (@checkCollisions Sample.host "build/tokens.json" (Some T) Sample.world)
     = Normal 1.
Proof.
  intros T.
  assert (Hp : forall t, t ∈ T -> JsObject.inherited (Token.name t) = false).
  { intros t Ht. unfold T in Ht.
    apply elem_of_cons in Ht as [->|Ht]; [reflexivity|].
    apply elem_of_cons in Ht as [->|Ht]; [reflexivity|].
    by apply elem_of_nil in Ht. }
  split; [exact Hp|].
  exact (proj1 (@collision_check_report Sample.host "build/tokens.json" T
                  Sample.world Hp)).
Defined.

Lemma report_follows_counts_witness :
  let file := Sample.tokens_json (JsFunction 0) in
  let run :=
    @buildFile Sample.host file Sample.no_platform Sample.colors Sample.world in
  fst run = Normal JsUndefined
  /\ exists content,
       World.files (snd run) = <["build/tokens.json" := content]> ∅.
Proof.
  intros file run.
  assert (Hrun : fst run = Normal JsUndefined) by (vm_compute; reflexivity).
  split; [exact Hrun|].
  destruct (@report_follows_counts Sample.host file Sample.no_platform
              Sample.colors Sample.world 0 "build/tokens.json"
              eq_refl eq_refl Hrun) as (content & _ & Hfiles & _).
  exists content. exact Hfiles.
Defined.

Lemma written_file_is_formatter_output_witness :
  let run :=
    @buildFile Sample.host Sample.vars_css Sample.dist Sample.colors
      Sample.world in
  fst run = Normal JsUndefined
  /\ exists content, World.files (snd run) !! "dist/vars.css" = Some content.
Proof.
  intros run.
  assert (Hrun : fst run = Normal JsUndefined) by (vm_compute; reflexivity).
  split; [exact Hrun|].
  destruct (@written_file_is_formatter_output Sample.host Sample.vars_css
              Sample.dist Sample.colors Sample.world 0 "vars.css"
              eq_refl eq_refl Hrun) as (content & _ & Hfile & _).
  exists content. exact Hfile.
Defined.

Lemma repeated_emission_same_output_witness :
  let file := Sample.tokens_json (JsFunction 2) in
  let first :=
    @buildFile Sample.host file Sample.no_platform Sample.colors Sample.world in
  let second :=
    @buildFile (Build_Host Sample.plain TokenFilter.filterProperties
                  Sample.later_functions)
      file Sample.no_platform Sample.colors (snd first) in
  let flushed :=
    @buildFile Sample.host file Sample.no_platform Sample.colors
      Sample.pending in
  (fst second = fst first
   /\ World.files (snd second) = World.files (snd first)
   /\ exists lines,
        console (snd first) = console Sample.world ++ lines
        /\ console (snd second) = console (snd first) ++ lines)
  /\ (fst flushed = Normal JsUndefined
      /\ GroupMessages.fetchMessages GroupMessages.GROUP.FilteredOutputReferences
           (World.groupedMessages Sample.pending) <> []
      /\ GroupMessages.fetchMessages GroupMessages.GROUP.FilteredOutputReferences
           (World.groupedMessages (snd flushed)) = []
      /\ exists lines,
           console (snd flushed)
           = console Sample.pending ++ lines
             ++ [ "While building build/tokens.json, filtered out token references were found; output may be unexpected. Here are the references that are used but not defined in the file"
                  +:+ nl +:+ "    color.base" +:+ nl
                  +:+ "This is caused when combining a filter and `outputReferences`." ]).
Proof.
  intros file first second flushed.
  assert (Hpending :
    GroupMessages.fetchMessages GroupMessages.GROUP.FilteredOutputReferences
      (World.groupedMessages Sample.world) = []) by reflexivity.
  assert (Hsame : forall f,
    File.format file = JsFunction f ->
    FunctionObject.nested (Sample.later_functions f)
    = FunctionObject.nested (@function_object Sample.host f)
    /\ FunctionObject.code (Sample.later_functions f) (ThisFile file)
         (@formatArgsOf Sample.host file Sample.no_platform Sample.colors)
         Sample.no_platform file
       = FunctionObject.code (@function_object Sample.host f) (ThisFile file)
           (@formatArgsOf Sample.host file Sample.no_platform Sample.colors)
           Sample.no_platform file).
  { intros f Hf. injection Hf as <-. split; reflexivity. }
  assert (Hrun : fst flushed = Normal JsUndefined) by (vm_compute; reflexivity).
  split.
  - destruct (@repeated_emission_same_output Sample.host Sample.later_functions
                file Sample.no_platform Sample.colors Sample.world)
      as [Htwice _].
    destruct (Htwice Hsame) as (Hres & Hfiles & _ & Hlines).
    split; [exact Hres|]. split; [exact Hfiles | exact (Hlines Hpending)].
  - assert (Hsome :
      GroupMessages.fetchMessages GroupMessages.GROUP.FilteredOutputReferences
        (World.groupedMessages Sample.pending) <> [])
      by (vm_compute; discriminate).
    split; [exact Hrun|]. split; [exact Hsome|].
    destruct (@repeated_emission_same_output Sample.host Sample.later_functions
                file Sample.no_platform Sample.colors Sample.pending)
      as [_ Hflush].
    destruct (Hflush 2 "build/tokens.json" eq_refl eq_refl Hrun)
      as [Hempty Hblock].
    split; [exact Hempty | exact (Hblock Hsome)].
Defined.


Lemma formatter_called_on_file_witness :
  let file := Sample.tokens_json (JsFunction 1) in
  let run :=
    @buildFile Sample.host file Sample.no_platform Sample.colors Sample.world in
  fst run = Normal JsUndefined
  /\ console (snd run) = [@successLine Sample.host "build/tokens.json"].
Proof.
  intros file run.
  assert (Hrun : fst run = Normal JsUndefined) by (vm_compute; reflexivity).
  split; [exact Hrun|].
  destruct (@formatter_called_on_file Sample.host file Sample.no_platform
              Sample.colors Sample.world 1 "build/tokens.json"
              eq_refl eq_refl Hrun) as (_ & _ & _ & Hnested).
  exact (Hnested eq_refl eq_refl eq_refl).
Defined.

(** ** Scenarios of the spec *)

Example dirname_of_nested_destination :
  path.dirname "build/tokens.json" = "build".
Proof. reflexivity. Qed.

Example dirname_of_plain_destination : path.dirname "vars.css" = ".".
Proof. reflexivity. Qed.

Example keys_list_indices_first :
  JsObject.keys [("b", 0); ("2", 0); ("a", 0); ("1", 0); ("01", 0)]
  = ["1"; "2"; "b"; "a"; "01"].
Proof. vm_compute. reflexivity. Qed.

(** Scenario A: one collision group, for "color-a", with two entries. *)
Example scenario_A :
  let run :=
    @buildFile Sample.host (Sample.tokens_json (JsFunction 0))
      Sample.no_platform Sample.colors Sample.world in
  fst run = Normal JsUndefined
  /\ GroupMessages.fetchMessages
       (PROPERTY_NAME_COLLISION_WARNINGS "build/tokens.json")
       (World.groupedMessages (snd run))
     = [@collisionMessage Sample.host "color-a" [Sample.color_a; Sample.color_b]].
Proof. split; vm_compute; reflexivity. Qed.

(** Scenario C: the file is written under the build path, and the missing
    directory is created. *)
Example scenario_C :
  let run :=
    @buildFile Sample.host Sample.vars_css Sample.dist Sample.colors
      Sample.world in
  is_Some (World.files (snd run) !! "dist/vars.css")
  /\ elements (World.dirs (snd run)) = ["dist"].
Proof. split; [vm_compute; eauto | vm_compute; reflexivity]. Qed.

(** A token named after a member of [Object.prototype] stops the check. *)
Example inherited_name_throws :
  fst (@checkCollisions Sample.host "tokens.json"
         (Some [Token.mk ["a"] "constructor" "1"]) Sample.world)
  = Throw (JsTypeError "nameCollisionObj[propertyName].push is not a function").
Proof. reflexivity. Qed.

(** * Further properties of [buildFile] *)

Section Further.
Context `{Host}.

Ltac consoles :=
  unfold console; cbn [World.trace];
  rewrite ?omap_app, ?ensureEvents_silent, ?omap_logged_ConsoleLog;
  cbn [omap list_omap logged app];
  rewrite ?omap_logged_ConsoleLog, ?app_nil_r, <- ?app_assoc.

Lemma not_inherited_name T :
  List.existsb (fun t => JsObject.inherited (Token.name t)) T = false ->
  forall t, t ∈ T -> JsObject.inherited (Token.name t) = false.
Proof.
  intros Hex t Ht. destruct (JsObject.inherited (Token.name t)) eqn:E; [|done].
  assert (List.existsb (fun t => JsObject.inherited (Token.name t)) T = true).
  { apply existsb_exists. exists t. split; [by apply list_elem_of_In | done]. }
  congruence.
Qed.

Lemma collectAll_inherited T :
  (exists t, t ∈ T /\ JsObject.inherited (Token.name t) = true) ->
  collectAll T []
  = Throw (JsTypeError "nameCollisionObj[propertyName].push is not a function").
Proof.
  induction T as [|t T IH] using rev_ind; intros (t' & Ht' & Hproto).
  - by apply elem_of_nil in Ht'.
  - rewrite collectAll_app.
    destruct (List.existsb (fun t => JsObject.inherited (Token.name t)) T)
      eqn:Hex.
    + apply existsb_exists in Hex as (t0 & Ht0 & Hp0).
      rewrite IH; [done|]. exists t0. split; [by apply list_elem_of_In | done].
    + pose proof (not_inherited_name _ Hex) as Hnone.
      rewrite collectAll_groups by done.
      apply elem_of_app in Ht' as [Ht'|Ht'].
      { rewrite Hnone in Hproto by done. done. }
      apply list_elem_of_singleton in Ht' as ->.
      assert (Hfresh : Token.name t ∉ Detector.names T).
      { intros (t0 & Ht0 & E)%names_elem.
        rewrite <- E, Hnone in Hproto; done. }
      cbn [collectAll]. unfold collect, JsObject.get, Detector.groups.
      rewrite own_tabulated, decide_False by done.
      by rewrite Hproto, own_tabulated, decide_False.
Qed.

(** X1: the collision check throws exactly when a token is named after a member
    of [Object.prototype]; it then leaves the world as it was, the group of
    the destination included. *)
Theorem collision_check_throws_iff_inherited_name destination T w :
  let thrown :=
    Throw (JsTypeError "nameCollisionObj[propertyName].push is not a function") in
  (fst (checkCollisions destination (Some T) w) = thrown
   <-> exists t, t ∈ T /\ JsObject.inherited (Token.name t) = true)
  /\ (forall e, fst (checkCollisions destination (Some T) w) = Throw e ->
                e = JsTypeError "nameCollisionObj[propertyName].push is not a function"
                /\ snd (checkCollisions destination (Some T) w) = w).
Proof.
  intros thrown. rewrite checkCollisions_eq.
  destruct (List.existsb (fun t => JsObject.inherited (Token.name t)) T)
    eqn:Hex.
  - apply existsb_exists in Hex as (t0 & Ht0 & Hp0).
    assert (Hsome : exists t, t ∈ T /\ JsObject.inherited (Token.name t) = true).
    { exists t0. split; [by apply list_elem_of_In | done]. }
    simpl. rewrite (collectAll_inherited _ Hsome). simpl.
    split; [done|]. by intros e [= <-].
  - pose proof (not_inherited_name _ Hex) as Hnone.
    rewrite (nameCollisions_groups (Some T)) by done. simpl.
    split; [|done]. split; [done|].
    intros (t & Ht & Hp). rewrite Hnone in Hp by done. done.
Qed.




Lemma no_directory_call_in_lines lines :
  forallb (fun e => negb (directory_call e)) (map ConsoleLog lines) = true.
Proof. induction lines as [|l lines IH]; [done | exact IH]. Qed.

(** X4: a call on a valid file spec begins by testing the directory of the
    full destination, creates it only when the test fails, and makes no
    other call of [existsSync] or [mkdirsSync].  After the call that path
    is a directory exactly when it was one before or nothing existed there
    (a regular file at that path passes the test and stays); no directory
    is removed, and none is added when the path existed already. *)
Theorem destination_directory_ensured
    file platform dictionary w f destination :
  File.format file = JsFunction f ->
  File.destination file = JsString destination ->
  let dirname :=
    path.dirname (default "" (Platform.buildPath platform) +:+ destination) in
  let run := buildFile file platform dictionary w in
  (fs.is_directory dirname (snd run) = true
   <-> fs.is_directory dirname w = true \/ fs.exists_in dirname w = false)
  /\ World.dirs w ⊆ World.dirs (snd run)
  /\ (fs.exists_in dirname w = true -> World.dirs (snd run) = World.dirs w)
  /\ exists rest,
       World.trace (snd run)
       = World.trace w
         ++ FsExistsSync dirname
            :: (if fs.exists_in dirname w then [] else [FsMkdirsSync dirname])
         ++ rest
       /\ forallb (fun e => negb (directory_call e)) rest = true.
Proof.
  intros Hf Hd dirname run. subst run dirname.
  rewrite (buildFile_valid _ _ _ w _ _ Hf Hd). cbn zeta.
  rewrite <- fullDestinationOf_eq.
  set (dirname := path.dirname (fullDestinationOf platform destination)).
  assert (Hdirs : World.dirs w ⊆ ensuredDirs dirname w
                  /\ (fs.exists_in dirname w = true ->
                      ensuredDirs dirname w = World.dirs w)).
  { unfold ensuredDirs. destruct (fs.exists_in dirname w); split;
      try done; set_solver. }
  destruct Hdirs as [Hsub Hsame].
  assert (Hdir : forall fl g tr,
            fs.is_directory dirname (World.mk (ensuredDirs dirname w) fl g tr)
            = true
            <-> fs.is_directory dirname w = true
                \/ fs.exists_in dirname w = false).
  { intros fl g tr. unfold fs.is_directory. cbn [World.dirs].
    destruct (fs.exists_in dirname w) eqn:Hex.
    - rewrite (Hsame eq_refl). split; [by left | by intros [?|?]].
    - split; [by right|]. intros _.
      pose proof (ensured_exists dirname w (World.files w)
                    (World.groupedMessages w) (World.trace w)
                    (fun _ Hp => Hp)) as Hnow.
      unfold fs.exists_in in Hex, Hnow. cbn [World.dirs World.files] in Hnow.
      apply orb_false_iff in Hex as [Hex Hfile].
      rewrite Hfile, orb_false_r in Hnow. exact Hnow. }
  unfold ensureEvents.
  destruct (propertiesEmpty _) as [[|]|e0];
    [| destruct (nameCollisions _) as [obj|e0];
       [destruct (FormatOutcome.completion _) as [content|e0];
        [destruct (fs.writeError _ _) as [e0|]|]|] |];
    cbn [snd World.dirs World.trace];
    (split; [apply Hdir|]);
    (split; [done|]); (split; [done|]).
  - eexists. rewrite <- !app_assoc. split; [reflexivity | done].
  - eexists. rewrite <- !app_assoc. split; [reflexivity | done].
  - eexists. rewrite <- !app_assoc. split; [reflexivity|].
    cbn [forallb app directory_call negb andb].
    apply no_directory_call_in_lines.
  - eexists. rewrite <- !app_assoc. split; [reflexivity | done].
  - exists []. by rewrite app_nil_r.
  - exists []. by rewrite app_nil_r.
Qed.

(** X5: an emission that gets past the write leaves no reference-loss message
    pending: whatever was pending or recorded by the formatter has been
    reported and flushed. *)
Theorem emission_flushes_references file platform dictionary w f destination :
  File.format file = JsFunction f ->
  File.destination file = JsString destination ->
  fst (buildFile file platform dictionary w) = Normal JsUndefined ->
  GroupMessages.fetchMessages GroupMessages.GROUP.FilteredOutputReferences
    (World.groupedMessages (snd (buildFile file platform dictionary w))) = [].
Proof.
  intros Hf Hd Hrun.
  destruct (buildFile_emits _ _ _ _ _ _ Hf Hd Hrun)
    as (obj & content & _ & _ & _ & Hw).
  cbn zeta in Hw. rewrite Hw. cbn [World.groupedMessages].
  destruct (GroupMessages.fetchMessages _ (World.groupedMessages w) ++ _)
    as [|m ms] eqn:Hrefs; cbn [length Nat.ltb Nat.leb].
  - rewrite fetch_add_all_eq, fetch_rebuilt_ne
      by apply collision_group_not_references.
    exact Hrefs.
  - apply fetch_clear_eq.
Qed.

Lemma collision_group_injective d1 d2 :
  PROPERTY_NAME_COLLISION_WARNINGS d1 = PROPERTY_NAME_COLLISION_WARNINGS d2 ->
  d1 = d2.
Proof.
  unfold PROPERTY_NAME_COLLISION_WARNINGS. intros E. cbn in E. by simplify_eq.
Qed.

(** The message groups [buildFile] can change are the collision group of
    its destination and the reference-loss group. *)
Lemma message_groups_frame file platform dictionary w k :
  k <> GroupMessages.GROUP.FilteredOutputReferences ->
  (forall destination, File.destination file = JsString destination ->
                       k <> PROPERTY_NAME_COLLISION_WARNINGS destination) ->
  GroupMessages.fetchMessages k
    (World.groupedMessages (snd (buildFile file platform dictionary w)))
  = GroupMessages.fetchMessages k (World.groupedMessages w).
Proof.
  intros Hrefs Hkey.
  destruct (String.eqb (typeof (File.format file)) "function") eqn:Ef;
    [destruct (String.eqb (typeof (File.destination file)) "string") eqn:Ed|].
  2: { by rewrite !buildFile_invalid by (right; intros E; by rewrite E in Ed). }
  2: { by rewrite !buildFile_invalid by (left; intros E; by rewrite E in Ef). }
  apply typeof_function in Ef as [f Hf].
  apply typeof_string in Ed as [destination Hd].
  specialize (Hkey destination Hd).
  rewrite (buildFile_valid _ _ _ w _ _ Hf Hd). cbn zeta.
  destruct (propertiesEmpty _) as [[|]|e0]; [done| |done].
  destruct (nameCollisions _) as [obj|e0]; [|done].
  destruct (FormatOutcome.completion _) as [content|e0];
    [destruct (fs.writeError _ _) as [e0|]|];
    cbn [snd World.groupedMessages].
  - by rewrite fetch_add_all_ne, fetch_rebuilt_ne by done.
  - rewrite (fetch_flushed k) by done.
    by rewrite fetch_add_all_ne, fetch_rebuilt_ne by done.
  - by rewrite fetch_add_all_ne, fetch_rebuilt_ne by done.
Qed.

(** X6: the collision groups are kept apart by destination: a call for one
    destination leaves the collision group of every other destination as it
    was, whatever the build path. *)
Theorem collision_groups_isolated file platform dictionary w destination other :
  File.destination file = JsString destination ->
  other <> destination ->
  GroupMessages.fetchMessages (PROPERTY_NAME_COLLISION_WARNINGS other)
    (World.groupedMessages (snd (buildFile file platform dictionary w)))
  = GroupMessages.fetchMessages (PROPERTY_NAME_COLLISION_WARNINGS other)
      (World.groupedMessages w).
Proof.
  intros Hd Hother. apply message_groups_frame.
  - apply collision_group_not_references.
  - intros d Hd' E. rewrite Hd in Hd'. injection Hd' as <-.
    by apply collision_group_injective in E.
Qed.

(** X7: the empty-result return comes before the collision group is cleared:
    a call that returns null leaves every message group as it was, the
    messages of an earlier emission to the same destination included. *)
Theorem skip_keeps_message_groups file platform dictionary w :
  fst (buildFile file platform dictionary w) = Normal JsNull ->
  World.groupedMessages (snd (buildFile file platform dictionary w))
  = World.groupedMessages w.
Proof.
  destruct (String.eqb (typeof (File.format file)) "function") eqn:Ef;
    [destruct (String.eqb (typeof (File.destination file)) "string") eqn:Ed|].
  2: { by rewrite !buildFile_invalid by (right; intros E; by rewrite E in Ed). }
  2: { by rewrite !buildFile_invalid by (left; intros E; by rewrite E in Ef). }
  apply typeof_function in Ef as [f Hf].
  apply typeof_string in Ed as [destination Hd].
  rewrite (buildFile_valid _ _ _ w _ _ Hf Hd). cbn zeta.
  destruct (propertiesEmpty _) as [[|]|e0]; [done| |done].
  destruct (nameCollisions _) as [obj|e0]; [|done].
  destruct (FormatOutcome.completion _) as [content|e0]; [|done].
  by destruct (fs.writeError _ _).
Qed.

Lemma reportLines_length nested destination fullDestination count ms rs :
  1 <= length (reportLines nested destination fullDestination count ms rs) <= 3.
Proof.
  unfold reportLines.
  destruct ((truthy nested || Nat.eqb count 0) && Nat.eqb (length rs) 0);
    [simpl; lia|].
  destruct (Nat.ltb 0 count), (Nat.ltb 0 (length rs)); simpl; lia.
Qed.

(** X8: an emission that gets past the write has called the formatter once and
    [writeFileSync] once: after the test of the directory (and its creation
    when missing) come the call of the formatter, then the write, then
    between one and three printed lines, and nothing else. *)
Theorem emission_trace file platform dictionary w f destination :
  File.format file = JsFunction f ->
  File.destination file = JsString destination ->
  fst (buildFile file platform dictionary w) = Normal JsUndefined ->
  let fullDestination :=
    default "" (Platform.buildPath platform) +:+ destination in
  let dirname := path.dirname fullDestination in
  exists content lines,
    World.trace (snd (buildFile file platform dictionary w))
    = World.trace w
      ++ FsExistsSync dirname
         :: (if fs.exists_in dirname w then [] else [FsMkdirsSync dirname])
      ++ [FormatCall (formatArgsOf file platform dictionary) platform file;
          FsWriteFileSync fullDestination content]
      ++ map ConsoleLog lines
    /\ 1 <= length lines <= 3.
Proof.
  intros Hf Hd Hrun.
  destruct (buildFile_emits _ _ _ _ _ _ Hf Hd Hrun)
    as (obj & content & _ & _ & _ & Hw).
  cbn zeta in Hw. rewrite <- fullDestinationOf_eq. cbn zeta. rewrite Hw.
  eexists content, _. cbn [World.trace]. split; [reflexivity|].
  apply reportLines_length.
Qed.


Lemma list_filter_empty {A} (p : A -> bool) (l : list A) :
  List.filter p l = [] <-> forall x, x ∈ l -> p x = false.
Proof.
  split; [|apply list_filter_nil].
  intros Hnil x Hx. destruct (p x) eqn:E; [|done].
  assert (Hin : x ∈ List.filter p l) by (by apply elem_of_list_filter).
  rewrite Hnil in Hin. by apply elem_of_nil in Hin.
Qed.

Lemma named_elem t n T : t ∈ Detector.named n T <-> t ∈ T /\ Token.name t = n.
Proof.
  unfold Detector.named. rewrite elem_of_list_filter, String.eqb_eq. tauto.
Qed.

Lemma distinct_names_named T :
  NoDup (map Token.name T) <-> forall n, length (Detector.named n T) <= 1.
Proof.
  induction T as [|t T IH]; cbn [map].
  - split; [intros _ n; simpl; lia | intros _; constructor].
  - rewrite NoDup_cons, IH. unfold Detector.named. cbn [List.filter].
    fold (Detector.named (Token.name t) T). split.
    + intros [Hfresh Hle] n. fold (Detector.named n T).
      destruct (String.eqb (Token.name t) n) eqn:E; [|apply Hle].
      apply String.eqb_eq in E as <-. rewrite named_nil; [simpl; lia|].
      intros (t' & Ht' & E)%names_elem. apply Hfresh.
      rewrite <- E. apply list_elem_of_fmap. by exists t'.
    + intros Hle. split.
      * intros (t' & E & Ht')%list_elem_of_fmap.
        specialize (Hle (Token.name t)). rewrite String.eqb_refl in Hle.
        fold (Detector.named (Token.name t) T) in Hle.
        assert (Hin : t' ∈ Detector.named (Token.name t) T)
          by (by apply named_elem).
        destruct (Detector.named (Token.name t) T);
          [by apply elem_of_nil in Hin | simpl in Hle; lia].
      * intros n. specialize (Hle n). unfold Detector.named.
        destruct (String.eqb (Token.name t) n); simpl in Hle; lia.
Qed.

Lemma collision_count destination T w :
  (forall t, t ∈ T -> JsObject.inherited (Token.name t) = false) ->
  fst (checkCollisions destination (Some T) w)
  = Normal (length (Detector.colliding_names T)).
Proof.
  intros Hproto.
  rewrite checkCollisions_eq, (nameCollisions_groups (Some T)) by done.
  simpl. by rewrite collisionMessages_groups, length_map.
Qed.

(** X9: the collision count is zero exactly when the names of the tokens are
    pairwise distinct. *)
Theorem no_collision_iff_distinct_names destination T w :
  (forall t, t ∈ T -> JsObject.inherited (Token.name t) = false) ->
  fst (checkCollisions destination (Some T) w) = Normal 0
  <-> NoDup (map Token.name T).
Proof.
  intros Hproto. rewrite collision_count by done.
  rewrite distinct_names_named.
  assert (Hzero : Normal (length (Detector.colliding_names T))
                  = (Normal 0 : Completion nat)
                  <-> Detector.colliding_names T = []).
  { split; [intros [= Hl]; by apply length_zero_iff_nil | by intros ->]. }
  rewrite Hzero. unfold Detector.colliding_names. rewrite list_filter_empty.
  split.
  - intros Hnone n.
    destruct (decide (n ∈ Detector.names T)) as [Hn|Hn];
      [|rewrite named_nil by done; simpl; lia].
    rewrite <- key_order_Permutation in Hn. apply Hnone in Hn.
    unfold Detector.colliding in Hn. apply Nat.ltb_ge in Hn. lia.
  - intros Hle n _. unfold Detector.colliding. apply Nat.ltb_ge. apply Hle.
Qed.

Lemma named_without n m T :
  m <> n ->
  Detector.named m
    (List.filter (fun t => negb (String.eqb (Token.name t) n)) T)
  = Detector.named m T.
Proof.
  intros Hne. unfold Detector.named.
  induction T as [|t T IH]; cbn [List.filter]; [done|].
  destruct (String.eqb (Token.name t) n) eqn:En; cbn [negb List.filter].
  - apply String.eqb_eq in En.
    assert (Em : String.eqb (Token.name t) m = false)
      by (apply String.eqb_neq; congruence).
    by rewrite Em.
  - by rewrite IH.
Qed.

Lemma list_filter_split_length {A} (p : A -> bool) (l : list A) :
  length (List.filter p l) + length (List.filter (fun x => negb (p x)) l)
  = length l.
Proof.
  induction l as [|x l IH]; simpl; [done|]. destruct (p x); simpl; lia.
Qed.

Lemma colliding_bound ns T :
  NoDup ns -> (forall n, n ∈ ns -> 2 <= length (Detector.named n T)) ->
  2 * length ns <= length T.
Proof.
  intros Hnd. revert T.
  induction Hnd as [|n ns Hfresh Hnd IH]; intros T Htwo; [simpl; lia|].
  specialize (IH (List.filter (fun t => negb (String.eqb (Token.name t) n)) T)).
  pose proof (list_filter_split_length
                (fun t => String.eqb (Token.name t) n) T) as Hsplit.
  fold (Detector.named n T) in Hsplit.
  pose proof (Htwo n ltac:(left)) as Hn.
  assert (2 * length ns
          <= length (List.filter
                       (fun t => negb (String.eqb (Token.name t) n)) T)).
  { apply IH. intros m Hm. rewrite named_without.
    - apply Htwo. by right.
    - intros ->. done. }
  simpl. lia.
Qed.

(** X10: every colliding name takes two tokens at least: the collision count is
    at most half the number of tokens. *)
Theorem collision_count_bound destination T w count :
  fst (checkCollisions destination (Some T) w) = Normal count ->
  2 * count <= length T.
Proof.
  destruct (List.existsb (fun t => JsObject.inherited (Token.name t)) T)
    eqn:Hex.
  - apply existsb_exists in Hex as (t0 & Ht0 & Hp0).
    rewrite checkCollisions_eq. simpl.
    rewrite collectAll_inherited; [done|].
    exists t0. split; [by apply list_elem_of_In | done].
  - pose proof (not_inherited_name _ Hex) as Hnone.
    rewrite collision_count by done. intros [= <-].
    apply colliding_bound.
    + apply NoDup_list_filter. rewrite key_order_Permutation.
      apply first_seen_NoDup.
    + intros n [_ Hn]%elem_of_list_filter. by apply colliding_named.
Qed.

(** X11: after an emission the collision group of the destination holds the
    messages of the colliding names of the filtered tokens and nothing
    else, whatever it held before and whether or not they were printed. *)
Theorem emission_rebuilds_collision_group
    file platform dictionary w f destination T :
  File.format file = JsFunction f ->
  File.destination file = JsString destination ->
  FilterResult.allProperties (filterProperties dictionary (File.filter file))
  = Some T ->
  fst (buildFile file platform dictionary w) = Normal JsUndefined ->
  GroupMessages.fetchMessages (PROPERTY_NAME_COLLISION_WARNINGS destination)
    (World.groupedMessages (snd (buildFile file platform dictionary w)))
  = map (fun n => collisionMessage n (Detector.named n T))
      (Detector.colliding_names T).
Proof.
  intros Hf Hd HT Hrun.
  destruct (buildFile_emits _ _ _ _ _ _ Hf Hd Hrun)
    as (obj & content & Hn & _ & _ & Hw).
  cbn zeta in Hw. rewrite Hw. cbn [World.groupedMessages].
  rewrite (fetch_flushed (PROPERTY_NAME_COLLISION_WARNINGS destination))
    by apply collision_group_not_references.
  rewrite fetch_add_all_ne, fetch_rebuilt_eq
    by apply not_eq_sym, collision_group_not_references.
  rewrite HT in Hn. simpl in Hn.
  destruct (List.existsb (fun t => JsObject.inherited (Token.name t)) T)
    eqn:Hex.
  - apply existsb_exists in Hex as (t0 & Ht0 & Hp0).
    rewrite collectAll_inherited in Hn; [done|].
    exists t0. split; [by apply list_elem_of_In | done].
  - rewrite collectAll_groups in Hn by (by apply not_inherited_name).
    injection Hn as <-. apply collisionMessages_groups.
Qed.




(** X14: the value returned tells whether a file was written: null after the
    empty-result return, which leaves every file as it was, and undefined
    after an emission, which has written the full destination. *)
Theorem return_value_tells_write file platform dictionary w v :
  fst (buildFile file platform dictionary w) = Normal v ->
  (v = JsNull
   /\ World.files (snd (buildFile file platform dictionary w)) = World.files w)
  \/ (v = JsUndefined
      /\ exists destination content,
           File.destination file = JsString destination
           /\ World.files (snd (buildFile file platform dictionary w))
              = <[default "" (Platform.buildPath platform) +:+ destination
                  := content]> (World.files w)).
Proof.
  destruct (String.eqb (typeof (File.format file)) "function") eqn:Ef;
    [destruct (String.eqb (typeof (File.destination file)) "string") eqn:Ed|].
  2: { by rewrite !buildFile_invalid by (right; intros E; by rewrite E in Ed). }
  2: { by rewrite !buildFile_invalid by (left; intros E; by rewrite E in Ef). }
  apply typeof_function in Ef as [f Hf].
  apply typeof_string in Ed as [destination Hd].
  rewrite (buildFile_valid _ _ _ w _ _ Hf Hd). cbn zeta.
  destruct (propertiesEmpty _) as [[|]|e0]; [|  |done].
  - intros [= <-]. by left.
  - destruct (nameCollisions _) as [obj|e0]; [|done].
    destruct (FormatOutcome.completion _) as [content|e0]; [|done].
    destruct (fs.writeError _ _) as [e0|]; [done|].
    intros [= <-]. right. split; [done|]. exists destination, content.
    by rewrite <- fullDestinationOf_eq.
Qed.

End Further.

(** ** The further properties at sample inputs *)

Lemma collision_check_throws_iff_inherited_name_witness :
  fst (@checkCollisions Sample.host "sizes.css"
         (Some [Sample.two_x; Sample.constructor_token]) Sample.world)
  = Throw (JsTypeError "nameCollisionObj[propertyName].push is not a function").
Proof.
  apply (@collision_check_throws_iff_inherited_name Sample.host "sizes.css"
           [Sample.two_x; Sample.constructor_token] Sample.world).
  exists Sample.constructor_token. split; [|reflexivity].
  apply elem_of_cons. right. apply elem_of_cons. by left.
Defined.



Lemma destination_directory_ensured_witness :
  let run :=
    @buildFile Sample.host Sample.vars_css Sample.dist Sample.colors
      Sample.world in
  fs.exists_in "dist" Sample.world = false
  /\ fs.is_directory "dist" (snd run) = true.
Proof.
  intros run.
  assert (Hmissing : fs.exists_in "dist" Sample.world = false) by reflexivity.
  split; [exact Hmissing|].
  apply (proj1 (@destination_directory_ensured Sample.host Sample.vars_css
                  Sample.dist Sample.colors Sample.world 0 "vars.css"
                  eq_refl eq_refl)).
  right. exact Hmissing.
Defined.

Lemma emission_flushes_references_witness :
  let run :=
    @buildFile Sample.host (Sample.tokens_json (JsFunction 0))
      Sample.no_platform Sample.colors Sample.pending in
  fst run = Normal JsUndefined
  /\ GroupMessages.fetchMessages GroupMessages.GROUP.FilteredOutputReferences
       (World.groupedMessages Sample.pending) = ["color.base"]
  /\ GroupMessages.fetchMessages GroupMessages.GROUP.FilteredOutputReferences
       (World.groupedMessages (snd run)) = [].
Proof.
  intros run.
  assert (Hrun : fst run = Normal JsUndefined) by (vm_compute; reflexivity).
  split; [exact Hrun|]. split; [reflexivity|].
  exact (@emission_flushes_references Sample.host
           (Sample.tokens_json (JsFunction 0)) Sample.no_platform
           Sample.colors Sample.pending 0 "build/tokens.json"
           eq_refl eq_refl Hrun).
Defined.

Lemma collision_groups_isolated_witness :
  let run :=
    @buildFile Sample.host Sample.vars_css Sample.dist Sample.colors
      Sample.stale in
  "build/tokens.json" <> "vars.css"
  /\ GroupMessages.fetchMessages
       (PROPERTY_NAME_COLLISION_WARNINGS "build/tokens.json")
       (World.groupedMessages (snd run))
     = GroupMessages.fetchMessages
         (PROPERTY_NAME_COLLISION_WARNINGS "build/tokens.json")
         (World.groupedMessages Sample.stale).
Proof.
  intros run.
  assert (Hother : "build/tokens.json" <> "vars.css") by discriminate.
  split; [exact Hother|].
  exact (@collision_groups_isolated Sample.host Sample.vars_css Sample.dist
           Sample.colors Sample.stale "vars.css" "build/tokens.json"
           eq_refl Hother).
Defined.

Lemma skip_keeps_message_groups_witness :
  let file :=
    File.mk (JsString "build/tokens.json") (Some Sample.nothing) (JsFunction 0) in
  let run :=
    @buildFile Sample.host file Sample.no_platform Sample.colors Sample.stale in
  fst run = Normal JsNull
  /\ World.groupedMessages (snd run) = World.groupedMessages Sample.stale.
Proof.
  intros file run.
  assert (Hrun : fst run = Normal JsNull) by (vm_compute; reflexivity).
  split; [exact Hrun|].
  exact (@skip_keeps_message_groups Sample.host _ _ _ _ Hrun).
Defined.

Lemma emission_trace_witness :
  let run :=
    @buildFile Sample.host (Sample.tokens_json (JsFunction 0))
      Sample.no_platform Sample.colors Sample.world in
  fst run = Normal JsUndefined
  /\ exists content lines,
       World.trace (snd run)
       = [ FsExistsSync "build"; FsMkdirsSync "build";
           FormatCall
             (@formatArgsOf Sample.host (Sample.tokens_json (JsFunction 0))
                Sample.no_platform Sample.colors)
             Sample.no_platform (Sample.tokens_json (JsFunction 0));
           FsWriteFileSync "build/tokens.json" content ]
         ++ map ConsoleLog lines.
Proof.
  intros run.
  assert (Hrun : fst run = Normal JsUndefined) by (vm_compute; reflexivity).
  split; [exact Hrun|].
  destruct (@emission_trace Sample.host (Sample.tokens_json (JsFunction 0))
              Sample.no_platform Sample.colors Sample.world 0
              "build/tokens.json" eq_refl eq_refl Hrun)
    as (content & lines & Htrace & _).
  exists content, lines. exact Htrace.
Defined.

Lemma no_collision_iff_distinct_names_witness :
  (forall t, t ∈ [Sample.color_a; Sample.two_x] ->
             JsObject.inherited (Token.name t) = false)
  /\ fst (@checkCollisions Sample.host "build/tokens.json"
            (Some [Sample.color_a; Sample.two_x]) Sample.world)
     = Normal 0.
Proof.
  assert (Hp : forall t, t ∈ [Sample.color_a; Sample.two_x] ->
                         JsObject.inherited (Token.name t) = false).
  { intros t Ht.
    apply elem_of_cons in Ht as [->|Ht]; [reflexivity|].
    apply elem_of_cons in Ht as [->|Ht]; [reflexivity|].
    by apply elem_of_nil in Ht. }
  split; [exact Hp|].
  apply (@no_collision_iff_distinct_names Sample.host "build/tokens.json"
           [Sample.color_a; Sample.two_x] Sample.world Hp).
  cbn [map Token.name Sample.color_a Sample.two_x].
  apply NoDup_cons. split; [|apply NoDup_singleton].
  intros Hin%list_elem_of_singleton. discriminate Hin.
Defined.

Lemma collision_count_bound_witness :
  fst (@checkCollisions Sample.host "sizes.css" (Some Sample.sizes)
         Sample.world) = Normal 2
  /\ 2 * 2 <= length Sample.sizes.
Proof.
  assert (Hrun : fst (@checkCollisions Sample.host "sizes.css"
                        (Some Sample.sizes) Sample.world) = Normal 2)
    by (vm_compute; reflexivity).
  split; [exact Hrun|].
  exact (@collision_count_bound Sample.host "sizes.css" Sample.sizes
           Sample.world 2 Hrun).
Defined.

Lemma emission_rebuilds_collision_group_witness :
  let run :=
    @buildFile Sample.host (Sample.tokens_json (JsFunction 0))
      Sample.no_platform Sample.colors Sample.stale in
  fst run = Normal JsUndefined
  /\ GroupMessages.fetchMessages
       (PROPERTY_NAME_COLLISION_WARNINGS "build/tokens.json")
       (World.groupedMessages Sample.stale) = ["stale"]
  /\ GroupMessages.fetchMessages
       (PROPERTY_NAME_COLLISION_WARNINGS "build/tokens.json")
       (World.groupedMessages (snd run))
     = [@collisionMessage Sample.host "color-a"
          [Sample.color_a; Sample.color_b]].
Proof.
  intros run.
  assert (Hrun : fst run = Normal JsUndefined) by (vm_compute; reflexivity).
  split; [exact Hrun|]. split; [reflexivity|].
  exact (@emission_rebuilds_collision_group Sample.host
           (Sample.tokens_json (JsFunction 0)) Sample.no_platform
           Sample.colors Sample.stale 0 "build/tokens.json"
           [Sample.color_a; Sample.color_b] eq_refl eq_refl eq_refl Hrun).
Defined.



Lemma return_value_tells_write_witness :
  let run :=
    @buildFile Sample.host (Sample.tokens_json (JsFunction 0))
      Sample.no_platform Sample.colors Sample.world in
  fst run = Normal JsUndefined
  /\ exists destination content,
       World.files (snd run) = <[destination := content]> ∅.
Proof.
  intros run.
  assert (Hrun : fst run = Normal JsUndefined) by (vm_compute; reflexivity).
  split; [exact Hrun|].
  destruct (@return_value_tells_write Sample.host _ _ _ _ _ Hrun)
    as [[Hnull _]|(_ & destination & content & _ & Hfiles)];
    [discriminate Hnull|].
  eexists _, content. exact Hfiles.
Defined.
